(** * nf-core module installation: [ModuleInstall.install]

    A shallow embedding of [nf_core/modules/install.py].  The method is a
    sequence of guarded steps over three pieces of state: the [ModuleInstall]
    object itself (whose [force] attribute it may overwrite), the project
    tree on disk, and the [modules.json] manifest, which exists both as a
    file and as the working copy held by the [ModulesJson] object.  Each
    call to a collaborator is recorded as an event, so that statements about
    the order of effects can be made about the emitted trace. *)

From Stdlib Require Import Strings.Ascii Strings.Byte.
From stdpp Require Import gmap strings list fin_maps.

Open Scope string_scope.
Open Scope list_scope.

Set Warnings "-clear-no-such-hyp".

(** ** Data model *)

(** Leaf of the manifest: the installed revision (a commit hash). *)
Record InstalledModule := { revision : string }.

(** [modules_json["repos"][repo_url]["modules"][dir][name]]. *)
Abbreviation DirModules := (gmap string InstalledModule).
Abbreviation RepoContent := (gmap string (gmap string InstalledModule)).
Abbreviation Manifest := (gmap string (gmap string (gmap string InstalledModule))).

(** Files of one directory, by relative path; the project tree, by directory. *)
Abbreviation Files := (gmap string (list byte)).
Abbreviation Tree := (gmap string (gmap string (list byte))).

(** Outcome of [fetchModuleFiles], the retrieval of a module's file set at
    a revision: everything, or an error after some files were already
    transferred. *)
Inductive Fetch :=
| Fetched (files : Files)
| FetchFailed (partial : Files).

(** [self.modules_repo]: the remote, with the queries [install] makes. *)
Record ModulesRepo := {
  remote_url : string;
  repo_path : string;
  branch : string;
  sha_exists_on_branch : string → bool;
  get_avail_modules : list string;
  module_exists : string → bool;
  get_latest_module_version : string → string;
  fetch_module_files : string → string → Fetch
}.

(** The [ModuleInstall] object ([__init__], lines 17-30). *)
Record ModuleInstall := {
  dir : string;
  repo_type : string;
  modules_repo : ModulesRepo;
  force : bool;
  prompt : bool;
  sha : option string
}.

Definition set_force (b : bool) (self : ModuleInstall) : ModuleInstall :=
  {| dir := dir self; repo_type := repo_type self;
     modules_repo := modules_repo self;
     force := b; prompt := prompt self; sha := sha self |}.

(** Collaborators whose code is outside [install.py]: the directory check
    of [ModuleCommand], the repair done by the manifest consistency check,
    and the three [questionary] dialogues.  [prompt_module_version_sha]
    answers [None] where the Python function raises [SystemError]. *)
Record Collaborators := {
  has_valid_directory : ModuleInstall → Tree → bool;
  reconcile : Tree → Manifest → Manifest;
  ask_module : list string → string;
  confirm_force : string → bool;
  prompt_module_version_sha : string → option string → option string
}.

Record State := {
  self : ModuleInstall;
  tree : Tree;
  modules_json_file : Manifest;
  modules_json : Manifest
}.

Definition with_self (x : ModuleInstall) (st : State) : State :=
  {| self := x; tree := tree st;
     modules_json_file := modules_json_file st; modules_json := modules_json st |}.
Definition with_tree (t : Tree) (st : State) : State :=
  {| self := self st; tree := t;
     modules_json_file := modules_json_file st; modules_json := modules_json st |}.
Definition with_json (m : Manifest) (st : State) : State :=
  {| self := self st; tree := tree st;
     modules_json_file := modules_json_file st; modules_json := m |}.
Definition with_file (m : Manifest) (st : State) : State :=
  {| self := self st; tree := tree st;
     modules_json_file := m; modules_json := modules_json st |}.

(** ** Events *)

Inductive Level := Error | Warning | Info | Debug.

(** Log lines, by kind, with the values interpolated into them.  The hint
    of lines 98-105 is kept without its two flags, one of which compares
    with a constant of [modules_repo.py]. *)
Inductive Message :=
| MsgCloneOfModules
| MsgShaAndPrompt
| MsgShaMissing (sha url : string)
| MsgModuleNotAvailable (module : string)
| MsgUseList
| MsgNotInRemote (module url branch : string)
| MsgAlreadyInstalled
| MsgUpdateHint (module : string)
| MsgPromptError
| MsgRemoving (path module : string)
| MsgRemovingEntry (path module repo : string)
| MsgInstalling (reinstall : bool) (module : string)
| MsgInstallingAt (module version url : string)
| MsgInclude (module_name path : string).

Inductive Event :=
| EvValidDirectory
| EvCheckStructure
| EvLoadManifest
| EvCheckUpToDate
| EvShaExists (sha : string)
| EvAvailModules
| EvModuleExists (module : string)
| EvLatestVersion (module : string)
| EvAskModule
| EvConfirmForce (module : string)
| EvPromptVersion (module : string)
| EvPathExists (path : string)
| EvClearModuleDir (path : string)
| EvRemoveEntry (module url path : string)
| EvInstallFiles (module version folder : string) (ok : bool)
| EvUpdate (url path module version : string)
| EvLog (l : Level) (msg : Message).

#[global] Instance Level_eq_dec : EqDecision Level.
Proof. solve_decision. Defined.

#[global] Instance Message_eq_dec : EqDecision Message.
Proof. solve_decision. Defined.

#[global] Instance Event_eq_dec : EqDecision Event.
Proof. solve_decision. Defined.

(** Queries sent to the remote registry. *)
Definition remote_call (e : Event) : bool :=
  match e with
  | EvShaExists _ | EvAvailModules | EvModuleExists _ | EvLatestVersion _
  | EvInstallFiles _ _ _ _ => true
  | _ => false
  end.

(** Reads or writes of the project directory, the manifest file included. *)
Definition filesystem_access (e : Event) : bool :=
  match e with
  | EvValidDirectory | EvCheckStructure | EvLoadManifest | EvCheckUpToDate
  | EvPathExists _ | EvClearModuleDir _ | EvInstallFiles _ _ _ _
  | EvUpdate _ _ _ _ => true
  | _ => false
  end.

Definition filesystem_write (e : Event) : bool :=
  match e with
  | EvClearModuleDir _ | EvInstallFiles _ _ _ _ | EvUpdate _ _ _ _ => true
  | _ => false
  end.

Definition materialization (e : Event) : bool :=
  match e with EvInstallFiles _ _ _ _ => true | _ => false end.

Definition manifest_record (e : Event) : bool :=
  match e with EvUpdate _ _ _ _ => true | _ => false end.

(** ** The monad: state passing with an emitted trace *)

Definition M (A : Type) : Type := State → A * State * list Event.

Definition ret {A} (a : A) : M A := λ st, (a, st, []).

Definition bind {A B} (c : M A) (k : A → M B) : M B :=
  λ st, let '(a, st1, t1) := c st in
        let '(b, st2, t2) := k a st1 in
        (b, st2, t1 ++ t2).

Declare Scope install_scope.
Delimit Scope install_scope with install.
Notation "x <- c ;; k" := (bind c (λ x, k))
  (at level 100, c at next level, right associativity) : install_scope.
Notation "c ;; k" := (bind c (λ _, k))
  (at level 100, right associativity) : install_scope.
Open Scope install_scope.

Definition emit (e : Event) : M unit := λ st, (tt, st, [e]).
Definition log (l : Level) (msg : Message) : M unit := emit (EvLog l msg).
Definition get_state : M State := λ st, (st, st, []).
Definition modify (f : State → State) : M unit := λ st, (tt, f st, []).

Definition result {A} (r : A * State * list Event) : A := r.1.1.
Definition final {A} (r : A * State * list Event) : State := r.1.2.
Definition emitted {A} (r : A * State * list Event) : list Event := r.2.

(** ** Helpers from the Python runtime *)

(** Truth value of a [str]. *)
Definition truthy (s : string) : bool := negb (String.eqb s EmptyString).

Fixpoint ends_with_sep (s : string) : bool :=
  match s with
  | EmptyString => false
  | String c EmptyString => Ascii.eqb c "/"
  | String _ rest => ends_with_sep rest
  end.

Definition starts_with_sep (s : string) : bool :=
  match s with
  | String c _ => Ascii.eqb c "/"
  | EmptyString => false
  end.

(** [os.path.join(a, b)] of [posixpath]. *)
Definition path_join (a b : string) : string :=
  if starts_with_sep b then b
  else if negb (truthy a) || ends_with_sep a then a +:+ b
  else a +:+ "/" +:+ b.

Definition upper_ascii (c : ascii) : ascii :=
  let n := nat_of_ascii c in
  if (97 <=? n)%nat && (n <=? 122)%nat then ascii_of_nat (n - 32) else c.

(** ["_".join(module.upper().split("/"))], for ASCII module names: only the
    letters a-z are taken to upper case, which is what [str.upper] does on
    ASCII text; names with other characters are outside what this models. *)
Fixpoint include_name (module : string) : string :=
  match module with
  | EmptyString => EmptyString
  | String c rest =>
      String (if Ascii.eqb c "/" then "_"%char else upper_ascii c) (include_name rest)
  end.

(** ** The manifest store ([ModulesJson]) *)

Definition lookup_entry (m : Manifest) (url path name : string) : option InstalledModule :=
  match m !! url with
  | Some repo_content =>
      match repo_content !! path with
      | Some dir_modules => dir_modules !! name
      | None => None
      end
  | None => None
  end.

(** Modelled from the spec: [ModulesJson.remove_entry] is not under src/;
    it "removes one mapping entry; no-op if absent". *)
Definition remove_entry_pure (name url path : string) (m : Manifest) : Manifest :=
  match m !! url with
  | Some repo_content =>
      match repo_content !! path with
      | Some dir_modules =>
          <[url := <[path := delete name dir_modules]> repo_content]> m
      | None => m
      end
  | None => m
  end.

(** Modelled from the spec: the upsert done by [ModulesJson.update]
    ("recordInstall(remote, repoPath, moduleName, revision): upserts the
    entry"). *)
Definition record_install (url path name version : string) (m : Manifest) : Manifest :=
  let repo_content := default ∅ (m !! url) in
  let dir_modules := default ∅ (repo_content !! path) in
  <[url := <[path := <[name := {| revision := version |}]> dir_modules]> repo_content]> m.

(** Modelled from the spec: the constructor [ModulesJson(self.dir)] is not
    under src/; the object starts with nothing loaded. *)
Definition ModulesJson_init : M unit := modify (with_json ∅).

(** Modelled from the spec: [ModulesJson.load] "reads persisted state into
    memory". *)
Definition load : M unit :=
  emit EvLoadManifest ;;
  modify (λ st, with_json (modules_json_file st) st).

(** Modelled from the spec: [ModulesJson.check_up_to_date] is the load
    followed by the consistency check, which "reconciles manifest entries
    against the actual module directory tree" and "never deletes files, only
    manifest bookkeeping"; the manifest is "mutated in memory, flushed
    atomically at the end of a successful install".  What the repair does to
    the entries is the collaborator [reconcile]. *)
Definition check_up_to_date (env : Collaborators) : M unit :=
  load ;;
  emit EvCheckUpToDate ;;
  modify (λ st, with_json (reconcile env (tree st) (modules_json st)) st).

(** Modelled from the spec: [ModulesJson.get_module_version] is the "pure
    lookup" [getInstalledRevision]. *)
Definition get_module_version (module url path : string) : M (option string) :=
  st <- get_state ;;
  ret (revision <$> lookup_entry (modules_json st) url path module).

(** Modelled from the spec: the call [modules_json.remove_entry(module,
    repo_url, repo_path)], acting on the working copy. *)
Definition remove_entry (module url path : string) : M unit :=
  emit (EvRemoveEntry module url path) ;;
  modify (λ st, with_json (remove_entry_pure module url path (modules_json st)) st).

(** Modelled from the spec: [ModulesJson.update] is not under src/; it is
    the "record install → save manifest" end of the sequence, the save
    persisting the full working copy. *)
Definition update (repo : ModulesRepo) (module version : string) : M unit :=
  emit (EvUpdate (remote_url repo) (repo_path repo) module version) ;;
  modify (λ st,
    let m := record_install (remote_url repo) (repo_path repo) module version
               (modules_json st) in
    with_file m (with_json m st)).

(** ** The project tree ([ModuleCommand]) *)

(** [os.path.exists]. *)
Definition path_exists (p : string) : M bool :=
  emit (EvPathExists p) ;;
  st <- get_state ;;
  ret (bool_decide (is_Some (tree st !! p))).

Definition valid_directory (env : Collaborators) : M bool :=
  emit EvValidDirectory ;;
  st <- get_state ;;
  ret (has_valid_directory env (self st) (tree st)).

(** Modelled from the spec: [ModuleCommand.check_modules_structure] is not
    under src/; the spec calls it "directory-structure validation for the
    enclosing project", and [install] ignores what it returns. *)
Definition check_modules_structure : M unit := emit EvCheckStructure.

(** Modelled from the spec: [ModuleCommand.clear_module_dir] is not under
    src/; it is the "purge of the existing module directory". *)
Definition clear_module_dir (module module_dir : string) : M unit :=
  emit (EvClearModuleDir module_dir) ;;
  modify (λ st, with_tree (delete module_dir (tree st)) st).

(** Modelled from the spec: the two steps of the File Materializer,
    creating the target directory when absent and writing the files of the
    module over what its directory holds. *)
Definition ensure_dir (p : string) (t : Tree) : Tree :=
  match t !! p with
  | Some _ => t
  | None => <[p := ∅]> t
  end.

Definition write_files (module_dir : string) (files : Files) (t : Tree) : Tree :=
  <[module_dir := files ∪ default ∅ (t !! module_dir)]> t.

(** Modelled from the spec: [ModuleCommand.install_module_files] is not
    under src/; it is the File Materializer, which "creates the target
    directory tree if absent", "writes each file under the target directory,
    preserving relative paths within the module", and whose failure
    "mid-transfer leaves the directory in an indeterminate state". *)
Definition install_module_files (module version : string) (repo : ModulesRepo)
    (install_folder : string) : M bool :=
  let module_dir := path_join install_folder module in
  match fetch_module_files repo version module with
  | Fetched files =>
      emit (EvInstallFiles module version install_folder true) ;;
      modify (λ st, with_tree (write_files module_dir files
                                 (ensure_dir install_folder (tree st))) st) ;;
      ret true
  | FetchFailed partial =>
      emit (EvInstallFiles module version install_folder false) ;;
      modify (λ st, with_tree (write_files module_dir partial
                                 (ensure_dir install_folder (tree st))) st) ;;
      ret false
  end.

(** ** Queries to the remote and to the user *)

Definition sha_exists (repo : ModulesRepo) (s : string) : M bool :=
  emit (EvShaExists s) ;; ret (sha_exists_on_branch repo s).

Definition avail_modules (repo : ModulesRepo) : M (list string) :=
  emit EvAvailModules ;; ret (get_avail_modules repo).

Definition module_exists_on_branch (repo : ModulesRepo) (module : string) : M bool :=
  emit (EvModuleExists module) ;; ret (module_exists repo module).

Definition latest_module_version (repo : ModulesRepo) (module : string) : M string :=
  emit (EvLatestVersion module) ;; ret (get_latest_module_version repo module).

Definition autocomplete_module (env : Collaborators) (choices : list string) : M string :=
  emit EvAskModule ;; ret (ask_module env choices).

Definition confirm_reinstall (env : Collaborators) (module : string) : M bool :=
  emit (EvConfirmForce module) ;; ret (confirm_force env module).

Definition prompt_version (env : Collaborators) (module : string)
    (installed_sha : option string) : M (option string) :=
  emit (EvPromptVersion module) ;;
  ret (prompt_module_version_sha env module installed_sha).

(** ** [ModuleInstall.install], block by block *)

(** Truth value of an optional [str] such as [self.sha]. *)
Definition truthy_opt (o : option string) : bool :=
  match o with
  | Some s => truthy s
  | None => false
  end.

(** Lines 82 and 85. *)
Definition install_folder_of (obj : ModuleInstall) : string :=
  path_join (path_join (dir obj) "modules") (repo_path (modules_repo obj)).

Definition module_dir_of (obj : ModuleInstall) (module : string) : string :=
  path_join (install_folder_of obj) module.

(** Lines 33-55: the guards before a module is chosen; [true] when the
    install may go on. *)
Definition check_request (env : Collaborators) : M bool :=
  st <- get_state ;;
  let obj := self st in
  if String.eqb (repo_type obj) "modules" then
    log Error MsgCloneOfModules ;;
    ret false
  else
    valid <- valid_directory env ;;
    if negb valid then ret false
    else
      check_modules_structure ;;
      ModulesJson_init ;;
      check_up_to_date env ;;
      if prompt obj && bool_decide (is_Some (sha obj)) then
        log Error MsgShaAndPrompt ;;
        ret false
      else if truthy_opt (sha obj) then
        found <- sha_exists (modules_repo obj) (default EmptyString (sha obj)) ;;
        if negb found then
          log Error (MsgShaMissing (default EmptyString (sha obj)) (remote_url (modules_repo obj))) ;;
          ret false
        else ret true
      else ret true.

(** Lines 57-75: the module name, asked for when absent, then checked
    against the catalog and the branch; [None] when it is rejected. *)
Definition select_module (env : Collaborators) (module : option string)
    : M (option string) :=
  st <- get_state ;;
  let repo := modules_repo (self st) in
  module <- match module with
            | None =>
                choices <- avail_modules repo ;;
                autocomplete_module env choices
            | Some m => ret m
            end ;;
  unavailable <- (if truthy module then
                    avail <- avail_modules repo ;;
                    ret (negb (bool_decide (module ∈ avail)))
                  else ret false) ;;
  if unavailable then
    log Error (MsgModuleNotAvailable module) ;;
    log Info MsgUseList ;;
    ret None
  else
    found <- module_exists_on_branch repo module ;;
    if negb found then
      log Warning (MsgNotInRemote module (remote_url repo) (branch repo)) ;;
      ret None
    else ret (Some module).

(** Lines 77-106: the installed version and the already-installed check;
    [None] when the install stops, otherwise [current_version]. *)
Definition check_installed (env : Collaborators) (module : string)
    : M (option (option string)) :=
  st <- get_state ;;
  let obj := self st in
  let repo := modules_repo obj in
  current_version <- get_module_version module (remote_url repo) (repo_path repo) ;;
  present <- match current_version with
             | Some _ => path_exists (module_dir_of obj module)
             | None => ret false
             end ;;
  if present && negb (force obj) then
    log Info MsgAlreadyInstalled ;;
    answer <- confirm_reinstall env module ;;
    modify (λ st, with_self (set_force answer (self st)) st) ;;
    if negb answer then
      log Info (MsgUpdateHint module) ;;
      ret None
    else ret (Some current_version)
  else ret (Some current_version).

(** Lines 108-122: the version to install; [None] when the dialogue raised
    [SystemError]. *)
Definition choose_version (env : Collaborators) (module : string)
    (current_version : option string) : M (option string) :=
  st <- get_state ;;
  let obj := self st in
  if truthy_opt (sha obj) then ret (Some (default EmptyString (sha obj)))
  else if prompt obj then
    answer <- prompt_version env module current_version ;;
    match answer with
    | Some version => ret (Some version)
    | None => log Error MsgPromptError ;; ret None
    end
  else
    version <- latest_module_version (modules_repo obj) module ;;
    ret (Some version).

(** Lines 129-136: the innermost loop, left by [break] at the first match. *)
Fixpoint scan_names (names : list string) (repo_url dir module repo_path : string)
    : M unit :=
  match names with
  | [] => ret tt
  | name :: rest =>
      if String.eqb name module && String.eqb dir repo_path then
        log Info (MsgRemovingEntry repo_path module repo_url) ;;
        remove_entry module repo_url repo_path
      else scan_names rest repo_url dir module repo_path
  end.

(** Line 128. *)
Fixpoint scan_dirs (dirs : list (string * gmap string InstalledModule))
    (repo_url module repo_path : string) : M unit :=
  match dirs with
  | [] => ret tt
  | (dir, dir_modules) :: rest =>
      scan_names (map_to_list dir_modules).*1 repo_url dir module repo_path ;;
      scan_dirs rest repo_url module repo_path
  end.

(** Line 127. *)
Fixpoint scan_repos (repos : list (string * gmap string (gmap string InstalledModule)))
    (module repo_path : string) : M unit :=
  match repos with
  | [] => ret tt
  | (repo_url, repo_content) :: rest =>
      scan_dirs (map_to_list repo_content) repo_url module repo_path ;;
      scan_repos rest module repo_path
  end.

(** Lines 124-136: with [force], the module directory is cleared and the
    manifest scanned for entries to remove. *)
Definition remove_installed (module : string) : M unit :=
  st <- get_state ;;
  let obj := self st in
  if force obj then
    log Info (MsgRemoving (repo_path (modules_repo obj)) module) ;;
    clear_module_dir module (module_dir_of obj module) ;;
    st' <- get_state ;;
    scan_repos (map_to_list (modules_json st')) module (repo_path (modules_repo obj))
  else ret tt.

(** Lines 138-155: download, then reload and update the manifest. *)
Definition download_and_record (module version : string) (silent : bool) : M bool :=
  st <- get_state ;;
  let obj := self st in
  let repo := modules_repo obj in
  log Info (MsgInstalling (force obj) module) ;;
  log Debug (MsgInstallingAt module version (remote_url repo)) ;;
  ok <- install_module_files module version repo (install_folder_of obj) ;;
  if negb ok then ret false
  else
    (if negb silent then
       log Info (MsgInclude (include_name module) (module_dir_of obj module))
     else ret tt) ;;
    load ;;
    update repo module version ;;
    ret true.

(** Lines 33-136: everything [install] does before the download; [None]
    when it has returned [False], otherwise the module and the version that
    the download receives. *)
Definition prepare (env : Collaborators) (module : option string)
    : M (option (string * string)) :=
  ok <- check_request env ;;
  if negb ok then ret None
  else
    chosen <- select_module env module ;;
    match chosen with
    | None => ret None
    | Some module =>
        installed <- check_installed env module ;;
        match installed with
        | None => ret None
        | Some current_version =>
            resolved <- choose_version env module current_version ;;
            match resolved with
            | None => ret None
            | Some version =>
                remove_installed module ;;
                ret (Some (module, version))
            end
        end
    end.

(** [install(self, module, silent=False)]. *)
Definition install (env : Collaborators) (module : option string) (silent : bool)
    : M bool :=
  plan <- prepare env module ;;
  match plan with
  | None => ret false
  | Some (module, version) => download_and_record module version silent
  end.


(** ** Notions used to state the properties *)

(** Removing the same module under a list of remotes, one after another. *)
Definition remove_all (name path : string) (urls : list string)
    (m : gmap string (gmap string (gmap string InstalledModule)))
    : gmap string (gmap string (gmap string InstalledModule)) :=
  foldl (λ acc u, remove_entry_pure name u path acc) m urls.

(** Whether the innermost loop meets the module in directory [dir]. *)
Definition hit (module repo_path : string) (names : list string) (dir : string) : bool :=
  existsb (λ name, String.eqb name module && String.eqb dir repo_path) names.

(** The remotes under which the loops call [remove_entry], in order. *)
Definition dir_hits (module repo_path : string)
    (dirs : list (string * gmap string InstalledModule)) (repo_url : string)
    : list string :=
  dirs ≫= λ '(dir, dir_modules),
    if hit module repo_path (map_to_list dir_modules).*1 dir then [repo_url] else [].

Definition repo_hits (module repo_path : string)
    (repos : list (string * gmap string (gmap string InstalledModule)))
    : list string :=
  repos ≫= λ '(repo_url, repo_content),
    dir_hits module repo_path (map_to_list repo_content) repo_url.

(** What a loop leaves behind: only the working copy of the manifest
    changes, by the removals [urls]. *)
Definition removes (module repo_path : string) (urls : list string)
    (st st' : State) : Prop :=
  self st' = self st ∧ tree st' = tree st ∧
  modules_json_file st' = modules_json_file st ∧
  modules_json st' = remove_all module repo_path urls (modules_json st).

(** The events of the loops: log lines and calls of [remove_entry]. *)
Definition removal_event (module repo_path : string) (e : Event) : Prop :=
  match e with
  | EvLog _ _ => True
  | EvRemoveEntry name _ path => name = module ∧ path = repo_path
  | _ => False
  end.

(** Events each block of [install] can emit. *)
Definition request_event (e : Event) : bool :=
  match e with
  | EvValidDirectory | EvCheckStructure | EvLoadManifest | EvCheckUpToDate
  | EvShaExists _ | EvLog _ _ => true
  | _ => false
  end.

Definition select_event (e : Event) : bool :=
  match e with
  | EvAvailModules | EvAskModule | EvModuleExists _ | EvLog _ _ => true
  | _ => false
  end.

Definition installed_event (e : Event) : bool :=
  match e with
  | EvPathExists _ | EvConfirmForce _ | EvLog _ _ => true
  | _ => false
  end.

Definition version_event (e : Event) : bool :=
  match e with
  | EvPromptVersion _ | EvLatestVersion _ | EvLog _ _ => true
  | _ => false
  end.

Definition purge_event (e : Event) : bool :=
  match e with
  | EvClearModuleDir _ | EvRemoveEntry _ _ _ | EvLog _ _ => true
  | _ => false
  end.

(** Events of the blocks that follow the name check. *)
Definition later_event (e : Event) : bool :=
  installed_event e || version_event e || purge_event e.

Definition confirm_event (e : Event) : bool :=
  match e with EvConfirmForce _ => true | _ => false end.

(** Events that change the project tree, the manifest file or the working
    copy of the manifest. *)
Definition mutating (e : Event) : bool :=
  match e with
  | EvClearModuleDir _ | EvRemoveEntry _ _ _ | EvInstallFiles _ _ _ _
  | EvUpdate _ _ _ _ => true
  | _ => false
  end.

(** The pure content of lines 108-122. *)
Definition resolved_version (env : Collaborators) (obj : ModuleInstall)
    (module : string) (current_version : option string) : option string :=
  if truthy_opt (sha obj) then Some (default EmptyString (sha obj))
  else if prompt obj then prompt_module_version_sha env module current_version
  else Some (get_latest_module_version (modules_repo obj) module).

(** The version a manifest records for a module of [obj]'s remote. *)
Definition current_version_in
    (m : gmap string (gmap string (gmap string InstalledModule)))
    (obj : ModuleInstall) (module : string) : option string :=
  revision <$> lookup_entry m (remote_url (modules_repo obj))
                 (repo_path (modules_repo obj)) module.

(** Line 88, without the [force] conjunct. *)
Definition installed_here (st : State) (module : string) : bool :=
  match current_version_in (modules_json st) (self st) module with
  | Some _ => bool_decide (is_Some (tree st !! module_dir_of (self st) module))
  | None => false
  end.

(** The manifest as the consistency check at line 45 leaves it. *)
Definition checked_manifest (env : Collaborators) (st : State)
    : gmap string (gmap string (gmap string InstalledModule)) :=
  reconcile env (tree st) (modules_json_file st).

(** All entries of a manifest, as (remote, directory, name, record). *)
Definition entries (m : gmap string (gmap string (gmap string InstalledModule)))
    : list (string * string * string * InstalledModule) :=
  map_to_list m ≫= λ '(url, repo_content),
    map_to_list repo_content ≫= λ '(d, dir_modules),
      map_to_list dir_modules ≫= λ '(name, e), [(url, d, name, e)].

Definition entry_count (m : gmap string (gmap string (gmap string InstalledModule)))
    (url path name : string) : nat :=
  length (filter (λ x, x.1.1.1 = url ∧ x.1.1.2 = path ∧ x.1.2 = name) (entries m)).

(** ** A small project, for running the model *)

Module Demo.

Definition url1 := "https://github.com/nf-core/modules.git".
Definition url2 := "git@github.com:nf-core/modules.git".
Definition path := "nf-core/modules".

Definition foo_files : Files := {[ "main.nf" := [x61%byte] ]}.

Definition repo (url : string) : ModulesRepo :=
  {| remote_url := url; repo_path := path; branch := "master";
     sha_exists_on_branch := λ s, String.eqb s "abc123" || String.eqb s "def456";
     get_avail_modules := ["foo"; "bar"];
     module_exists := λ m, String.eqb m "foo" || String.eqb m "bar" || String.eqb m EmptyString;
     get_latest_module_version := λ _, "abc123";
     fetch_module_files := λ v m,
       if String.eqb m "bar" then FetchFailed ∅ else Fetched foo_files |}.

(** A remote whose branch check rejects the empty name. *)
Definition strict_repo : ModulesRepo :=
  {| remote_url := url1; repo_path := path; branch := "master";
     sha_exists_on_branch := λ s, String.eqb s "abc123";
     get_avail_modules := ["foo"; "bar"];
     module_exists := λ m, String.eqb m "foo" || String.eqb m "bar";
     get_latest_module_version := λ _, "abc123";
     fetch_module_files := λ v m, Fetched foo_files |}.

Definition strict_obj : ModuleInstall :=
  {| dir := "."; repo_type := "pipeline"; modules_repo := strict_repo;
     force := false; prompt := false; sha := None |}.

Definition obj (f p : bool) (s : option string) : ModuleInstall :=
  {| dir := "."; repo_type := "pipeline"; modules_repo := repo url1;
     force := f; prompt := p; sha := s |}.

Definition env (yes : bool) : Collaborators :=
  {| has_valid_directory := λ _ _, true;
     reconcile := λ _ m, m;
     ask_module := λ _, "foo";
     confirm_force := λ _, yes;
     prompt_module_version_sha := λ _ _, Some "def456" |}.

Definition start (o : ModuleInstall) (t : Tree) (m : Manifest) : State :=
  {| self := o; tree := t; modules_json_file := m; modules_json := ∅ |}.

(** [foo] recorded under two remotes that share the repository path. *)
Definition two_remotes : Manifest :=
  record_install url2 path "foo" "r2" (record_install url1 path "foo" "r1" ∅).

(** [bar] recorded under the first remote. *)
Definition bar_recorded : Manifest := record_install url1 path "bar" "r1" ∅.

Definition foo_installed : Tree :=
  {[ "./modules/nf-core/modules/foo" := {[ "main.nf" := [x62%byte] ]} ]}.

Definition bar_installed : Tree :=
  {[ "./modules/nf-core/modules/bar" := {[ "main.nf" := [x62%byte] ]} ]}.

End Demo.

(** ** Further notions: traces of the purge, version queries, the include name *)

(** The events of the removal loops when [remove_entry] is called for the
    remotes [urls], in order. *)
Definition removal_trace (module repo_path : string) (urls : list string)
    : list Event :=
  urls ≫= λ u, [EvLog Info (MsgRemovingEntry repo_path module u);
                EvRemoveEntry module u repo_path].

(** The calls of [remove_entry] in a trace, as (module, remote, directory). *)
Definition remove_calls (t : list Event) : list (string * string * string) :=
  omap (λ e, match e with
             | EvRemoveEntry name url path => Some (name, url, path)
             | _ => None
             end) t.

(** Calls that purge: clearing a directory, removing a manifest entry. *)
Definition purge_call (e : Event) : bool :=
  match e with
  | EvClearModuleDir _ | EvRemoveEntry _ _ _ => true
  | _ => false
  end.

(** The trace of lines 108-122, by mode. *)
Definition version_trace (env : Collaborators) (obj : ModuleInstall)
    (module : string) (current_version : option string) : list Event :=
  if truthy_opt (sha obj) then []
  else if prompt obj then
    EvPromptVersion module ::
    match prompt_module_version_sha env module current_version with
    | Some _ => []
    | None => [EvLog Error MsgPromptError]
    end
  else [EvLatestVersion module].

Definition lower_ascii (c : ascii) : bool :=
  let n := nat_of_ascii c in (97 <=? n)%nat && (n <=? 122)%nat.

Fixpoint string_forall (P : ascii → bool) (s : string) : bool :=
  match s with
  | EmptyString => true
  | String c rest => P c && string_forall P rest
  end.

(** More projects to run the model on. *)
Module Scenario.

(** A clone of nf-core/modules. *)
Definition clone_obj : ModuleInstall :=
  {| dir := "."; repo_type := "modules"; modules_repo := Demo.repo Demo.url1;
     force := true; prompt := false; sha := None |}.

(** A directory that is not a pipeline, and a user whose version dialogue
    is interrupted. *)
Definition env (valid : bool) : Collaborators :=
  {| has_valid_directory := λ _ _, valid;
     reconcile := λ _ m, m;
     ask_module := λ _, "foo";
     confirm_force := λ _, false;
     prompt_module_version_sha := λ _ _, None |}.

(** A remote whose branch lacks [bar] and that never fails to deliver. *)
Definition repo : ModulesRepo :=
  {| remote_url := Demo.url1; repo_path := Demo.path; branch := "dev";
     sha_exists_on_branch := λ s, String.eqb s "abc123";
     get_avail_modules := ["foo"; "bar"];
     module_exists := λ m, String.eqb m "foo";
     get_latest_module_version := λ _, "abc123";
     fetch_module_files := λ v m, Fetched Demo.foo_files |}.

Definition obj (f p : bool) (s : option string) : ModuleInstall :=
  {| dir := "."; repo_type := "pipeline"; modules_repo := repo;
     force := f; prompt := p; sha := s |}.

(** A remote whose transfer of [foo] breaks after one file. *)
Definition broken_repo : ModulesRepo :=
  {| remote_url := Demo.url1; repo_path := Demo.path; branch := "master";
     sha_exists_on_branch := λ s, String.eqb s "abc123";
     get_avail_modules := ["foo"; "bar"];
     module_exists := λ m, String.eqb m "foo";
     get_latest_module_version := λ _, "abc123";
     fetch_module_files := λ v m, FetchFailed {[ "meta.yml" := [x63%byte] ]} |}.

Definition broken_obj (f : bool) : ModuleInstall :=
  {| dir := "."; repo_type := "pipeline"; modules_repo := broken_repo;
     force := f; prompt := false; sha := None |}.

End Scenario.


(** A character of the ASCII range. *)
Definition ascii_char (c : ascii) : bool := (nat_of_ascii c <? 128)%nat.

(** Queries that resolve a version: the dialogue and the latest revision. *)
Definition version_query (e : Event) : bool :=
  match e with
  | EvPromptVersion _ | EvLatestVersion _ => true
  | _ => false
  end.

(** ** The manifest store: lookups after a removal or an upsert *)

Section Store.

Implicit Types (m : gmap string (gmap string (gmap string InstalledModule))).
Implicit Types (url path name : string).

Lemma lookup_remove_entry name url path m url' path' name' :
  lookup_entry (remove_entry_pure name url path m) url' path' name' =
  if decide (url' = url ∧ path' = path ∧ name' = name) then None
  else lookup_entry m url' path' name'.
Proof.
  unfold remove_entry_pure, lookup_entry.
  destruct (m !! url) as [rc|] eqn:Hrc.
  - destruct (rc !! path) as [dm|] eqn:Hdm.
    + destruct (decide (url' = url)) as [->|Hu].
      * rewrite lookup_insert_eq, Hrc.
        destruct (decide (path' = path)) as [->|Hp].
        -- rewrite lookup_insert_eq, Hdm.
           destruct (decide (name' = name)) as [->|Hn].
           ++ rewrite lookup_delete_eq. by rewrite decide_True.
           ++ rewrite lookup_delete_ne by done.
              rewrite decide_False; [done | intros (?&?&?); congruence].
        -- rewrite lookup_insert_ne by done.
           rewrite decide_False; [done | intros (?&?&?); congruence].
      * rewrite lookup_insert_ne by done.
        rewrite decide_False; [done | intros (?&?&?); congruence].
    + case_decide as H; [|done].
      destruct H as (-> & -> & ->). by rewrite Hrc, Hdm.
  - case_decide as H; [|done].
    destruct H as (-> & -> & ->). by rewrite Hrc.
Qed.

Lemma lookup_record_install url path name v m url' path' name' :
  lookup_entry (record_install url path name v m) url' path' name' =
  if decide (url' = url ∧ path' = path ∧ name' = name)
  then Some {| revision := v |}
  else lookup_entry m url' path' name'.
Proof.
  unfold record_install, lookup_entry.
  destruct (decide (url' = url)) as [->|Hu].
  - rewrite lookup_insert_eq.
    destruct (decide (path' = path)) as [->|Hp].
    + rewrite lookup_insert_eq.
      destruct (decide (name' = name)) as [->|Hn].
      * rewrite lookup_insert_eq. by rewrite decide_True.
      * rewrite lookup_insert_ne by done.
        rewrite decide_False by (intros (?&?&?); congruence).
        destruct (m !! url) as [rc|]; simpl; [|by rewrite lookup_empty].
        destruct (rc !! path); simpl; [done | by rewrite lookup_empty].
    + rewrite lookup_insert_ne by done.
      rewrite decide_False by (intros (?&?&?); congruence).
      destruct (m !! url) as [rc|]; simpl; [done | by rewrite lookup_empty].
  - rewrite lookup_insert_ne by done.
    rewrite decide_False; [done | intros (?&?&?); congruence].
Qed.

Lemma lookup_remove_all name path urls : ∀ m url' path' name',
  lookup_entry (remove_all name path urls m) url' path' name' =
  if decide (url' ∈ urls ∧ path' = path ∧ name' = name) then None
  else lookup_entry m url' path' name'.
Proof.
  induction urls as [|u urls IH]; intros m url' path' name'.
  - cbn [remove_all foldl]. case_decide as H; [|done].
    destruct H as [H _]. by apply elem_of_nil in H.
  - unfold remove_all in *. cbn [foldl]. rewrite IH, lookup_remove_entry.
    repeat case_decide; try done; set_solver.
Qed.

Lemma remove_all_app name path us1 us2 m :
  remove_all name path (us1 ++ us2) m =
  remove_all name path us2 (remove_all name path us1 m).
Proof. apply foldl_app. Qed.

End Store.

(** ** The removal loops (lines 127-136) *)

Section Scan.

Variables (module repo_path : string).

Lemma removes_nil st : removes module repo_path [] st st.
Proof. by unfold removes. Qed.

Lemma removes_app us1 us2 st1 st2 st3 :
  removes module repo_path us1 st1 st2 →
  removes module repo_path us2 st2 st3 →
  removes module repo_path (us1 ++ us2) st1 st3.
Proof.
  unfold removes. intros (Ha & Hb & Hc & Hd) (Ha' & Hb' & Hc' & Hd').
  rewrite remove_all_app, <- Hd. repeat split; congruence.
Qed.

Lemma scan_names_final names repo_url dir st :
  removes module repo_path
    (if hit module repo_path names dir then [repo_url] else [])
    st (final (scan_names names repo_url dir module repo_path st)).
Proof.
  induction names as [|name rest IH]; [apply removes_nil|].
  cbn [scan_names hit existsb].
  destruct (String.eqb name module && String.eqb dir repo_path) eqn:E.
  - by cbn.
  - apply IH.
Qed.

Lemma scan_dirs_final dirs repo_url : ∀ st,
  removes module repo_path (dir_hits module repo_path dirs repo_url) st
          (final (scan_dirs dirs repo_url module repo_path st)).
Proof.
  induction dirs as [|[dir dir_modules] rest IH]; intros st; [apply removes_nil|].
  cbn [scan_dirs]. unfold bind.
  pose proof (scan_names_final (map_to_list dir_modules).*1 repo_url dir st) as H1.
  destruct (scan_names _ repo_url dir module repo_path st) as [[[] st1] t1].
  pose proof (IH st1) as H2.
  destruct (scan_dirs rest repo_url module repo_path st1) as [[[] st2] t2].
  exact (removes_app _ _ _ _ _ H1 H2).
Qed.

Lemma scan_repos_final repos : ∀ st,
  removes module repo_path (repo_hits module repo_path repos) st
          (final (scan_repos repos module repo_path st)).
Proof.
  induction repos as [|[repo_url repo_content] rest IH]; intros st;
    [apply removes_nil|].
  cbn [scan_repos]. unfold bind.
  pose proof (scan_dirs_final (map_to_list repo_content) repo_url st) as H1.
  destruct (scan_dirs _ repo_url module repo_path st) as [[[] st1] t1].
  pose proof (IH st1) as H2.
  destruct (scan_repos rest module repo_path st1) as [[[] st2] t2].
  exact (removes_app _ _ _ _ _ H1 H2).
Qed.

(** Every remote that records the module under [repo_path] is met. *)
Lemma repo_hits_complete (m : gmap string (gmap string (gmap string InstalledModule)))
    (url : string) :
  is_Some (lookup_entry m url repo_path module) →
  url ∈ repo_hits module repo_path (map_to_list m).
Proof.
  unfold lookup_entry. intros [e He].
  destruct (m !! url) as [rc|] eqn:Hrc; [|done].
  destruct (rc !! repo_path) as [dm|] eqn:Hdm; [|done].
  unfold repo_hits. apply list_elem_of_bind.
  exists (url, rc). split; [|by apply elem_of_map_to_list].
  unfold dir_hits. apply list_elem_of_bind.
  exists (repo_path, dm). split; [|by apply elem_of_map_to_list].
  assert (hit module repo_path (map_to_list dm).*1 repo_path = true) as ->;
    [|set_solver].
  unfold hit. apply existsb_exists. exists module. split.
  - apply list_elem_of_In, list_elem_of_fmap. exists (module, e).
    split; [done | by apply elem_of_map_to_list].
  - by rewrite !String.eqb_refl.
Qed.

Lemma scan_names_emits names repo_url dir st :
  Forall (removal_event module repo_path)
    (emitted (scan_names names repo_url dir module repo_path st)).
Proof.
  induction names as [|name rest IH]; [by constructor|].
  cbn [scan_names].
  destruct (String.eqb name module && String.eqb dir repo_path).
  - cbn. repeat constructor.
  - apply IH.
Qed.

Lemma scan_dirs_emits dirs repo_url : ∀ st,
  Forall (removal_event module repo_path)
    (emitted (scan_dirs dirs repo_url module repo_path st)).
Proof.
  induction dirs as [|[dir dir_modules] rest IH]; intros st; [by constructor|].
  cbn [scan_dirs]. unfold bind.
  pose proof (scan_names_emits (map_to_list dir_modules).*1 repo_url dir st) as H1.
  destruct (scan_names _ repo_url dir module repo_path st) as [[[] st1] t1].
  pose proof (IH st1) as H2.
  destruct (scan_dirs rest repo_url module repo_path st1) as [[[] st2] t2].
  apply Forall_app. by split.
Qed.

Lemma scan_repos_emits repos : ∀ st,
  Forall (removal_event module repo_path)
    (emitted (scan_repos repos module repo_path st)).
Proof.
  induction repos as [|[repo_url repo_content] rest IH]; intros st;
    [by constructor|].
  cbn [scan_repos]. unfold bind.
  pose proof (scan_dirs_emits (map_to_list repo_content) repo_url st) as H1.
  destruct (scan_dirs _ repo_url module repo_path st) as [[[] st1] t1].
  pose proof (IH st1) as H2.
  destruct (scan_repos rest module repo_path st1) as [[[] st2] t2].
  apply Forall_app. by split.
Qed.

End Scan.

(** ** The blocks of [install], one at a time *)

Arguments path_join : simpl never.
Arguments install_folder_of : simpl never.
Arguments module_dir_of : simpl never.
Arguments include_name : simpl never.
Arguments lookup_entry : simpl never.
Arguments record_install : simpl never.
Arguments remove_entry_pure : simpl never.
Arguments write_files : simpl never.
Arguments ensure_dir : simpl never.
Arguments truthy : simpl never.
Arguments truthy_opt : simpl never.

Ltac run :=
  unfold valid_directory, check_modules_structure, ModulesJson_init,
    check_up_to_date, load, get_module_version, remove_entry, update,
    path_exists, clear_module_dir, sha_exists, avail_modules,
    module_exists_on_branch, latest_module_version, autocomplete_module,
    confirm_reinstall, prompt_version,
    bind, ret, emit, log, modify, get_state, result, final, emitted; simpl.

Ltac split_ifs :=
  repeat match goal with
         | |- context [if ?b then _ else _] => destruct b eqn:?; simpl
         end.

Lemma Forall_confirm_weaken (m : string) (t : list Event) :
  Forall (λ e, confirm_event e = false) t →
  Forall (λ e, confirm_event e = true → e = EvConfirmForce m) t.
Proof. intros H. eapply Forall_impl; [exact H|]. simpl. congruence. Qed.

Section Blocks.

Variable env : Collaborators.

Lemma check_request_spec st ok st1 t1 :
  check_request env st = (ok, st1, t1) →
  self st1 = self st ∧ tree st1 = tree st ∧
  modules_json_file st1 = modules_json_file st ∧
  Forall (λ e, request_event e = true) t1 ∧
  (ok = true →
     modules_json st1 = reconcile env (tree st) (modules_json_file st) ∧
     (truthy_opt (sha (self st)) = true →
        sha_exists_on_branch (modules_repo (self st)) (default EmptyString (sha (self st))) = true)).
Proof.
  unfold check_request. run.
  split_ifs;
    intros [= <- <- <-]; simpl; repeat split; try done;
    repeat constructor.
  intros _. by apply negb_false_iff.
Qed.

(** The name check leaves the state alone. *)
Lemma select_module_spec module st chosen st1 t1 :
  select_module env module st = (chosen, st1, t1) →
  st1 = st ∧ Forall (λ e, select_event e = true) t1 ∧
  ∀ m, chosen = Some m →
    module_exists (modules_repo (self st)) m = true ∧
    (truthy m = true → m ∈ get_avail_modules (modules_repo (self st))) ∧
    (∀ m0, module = Some m0 → m = m0).
Proof.
  unfold select_module. run.
  destruct module as [m0|]; simpl;
    split_ifs;
    intros [= <- <- <-]; simpl; (split; [done|]); (split; [repeat constructor|]);
    intros m [= <-]; rewrite ?negb_false_iff in *;
    repeat split; try done; try congruence;
    try (intros _; by eapply bool_decide_eq_true_1);
    try (by intros ? [= ->]).
Qed.

Lemma choose_version_spec module cur st r st1 t1 :
  choose_version env module cur st = (r, st1, t1) →
  st1 = st ∧ Forall (λ e, version_event e = true) t1 ∧
  r = resolved_version env (self st) module cur.
Proof.
  unfold choose_version, resolved_version. run.
  destruct (truthy_opt (sha (self st))); simpl.
  - intros [= <- <- <-]. repeat split. constructor.
  - destruct (prompt (self st)); simpl.
    + destruct (prompt_module_version_sha env module cur); simpl;
        intros [= <- <- <-]; repeat split; repeat constructor.
    + intros [= <- <- <-]. repeat split. repeat constructor.
Qed.

Lemma check_installed_spec module st r st1 t1 :
  check_installed env module st = (r, st1, t1) →
  tree st1 = tree st ∧ modules_json_file st1 = modules_json_file st ∧
  modules_json st1 = modules_json st ∧
  Forall (λ e, installed_event e = true) t1 ∧
  if installed_here st module && negb (force (self st)) then
    self st1 = set_force (confirm_force env module) (self st) ∧
    r = (if confirm_force env module
         then Some (current_version_in (modules_json st) (self st) module)
         else None) ∧
    Forall (λ e, confirm_event e = true → e = EvConfirmForce module) t1
  else
    self st1 = self st ∧
    r = Some (current_version_in (modules_json st) (self st) module) ∧
    Forall (λ e, confirm_event e = false) t1.
Proof.
  unfold check_installed, installed_here, current_version_in. run.
  destruct (lookup_entry _ _ _ _) as [e|]; simpl.
  - destruct (bool_decide _); simpl.
    + destruct (force (self st)) eqn:Hf; simpl.
      * intros [= <- <- <-]; simpl.
        repeat split; repeat (constructor; try done).
      * destruct (confirm_force env module); simpl;
          intros [= <- <- <-]; simpl;
          repeat split; repeat (constructor; try done).
    + intros [= <- <- <-]; simpl. repeat split; repeat (constructor; try done).
  - intros [= <- <- <-]; simpl. repeat split; repeat (constructor; try done).
Qed.

Lemma remove_installed_spec module st u st1 t1 :
  remove_installed module st = (u, st1, t1) →
  self st1 = self st ∧ modules_json_file st1 = modules_json_file st ∧
  Forall (λ e, purge_event e = true) t1 ∧
  if force (self st) then
    tree st1 = delete (module_dir_of (self st) module) (tree st) ∧
    EvClearModuleDir (module_dir_of (self st) module) ∈ t1 ∧
    ∀ url d n,
      lookup_entry (modules_json st1) url d n =
      if decide (d = repo_path (modules_repo (self st)) ∧ n = module) then None
      else lookup_entry (modules_json st) url d n
  else
    tree st1 = tree st ∧ modules_json st1 = modules_json st ∧ t1 = [].
Proof.
  unfold remove_installed. run.
  destruct (force (self st)); simpl; [|by intros [= <- <- <-]].
  set (path := repo_path (modules_repo (self st))).
  set (st0 := with_tree _ st).
  pose proof (scan_repos_final module path (map_to_list (modules_json st)) st0) as Hfin.
  pose proof (scan_repos_emits module path (map_to_list (modules_json st)) st0) as Hev.
  destruct (scan_repos _ module path st0) as [[[] st2] t2].
  unfold final, emitted in *. simpl in *.
  destruct Hfin as (Hs & Ht & Hf & Hj).
  intros [= <- <- <-]. repeat split; try done.
  - constructor; [done|]. constructor; [done|].
    eapply Forall_impl; [exact Hev|]. by intros [].
  - set_solver.
  - intros url d n. rewrite Hj, lookup_remove_all. simpl.
    destruct (decide (d = path ∧ n = module)) as [[-> ->]|Hne].
    + case_decide as Hin; [done|].
      destruct (lookup_entry (modules_json st) url path module) eqn:Hl; [|done].
      exfalso. apply Hin. repeat split.
      apply repo_hits_complete. by rewrite Hl.
    + rewrite decide_False; [done | intros (?&?&?); by apply Hne].
Qed.

Lemma download_and_record_spec module version silent st b st1 t1 :
  download_and_record module version silent st = (b, st1, t1) →
  let repo := modules_repo (self st) in
  let folder := install_folder_of (self st) in
  let module_dir := module_dir_of (self st) module in
  self st1 = self st ∧
  match fetch_module_files repo version module with
  | Fetched files =>
      b = true ∧
      tree st1 = write_files module_dir files (ensure_dir folder (tree st)) ∧
      modules_json_file st1 =
        record_install (remote_url repo) (repo_path repo) module version
          (modules_json_file st) ∧
      modules_json st1 = modules_json_file st1 ∧
      t1 = [EvLog Info (MsgInstalling (force (self st)) module);
            EvLog Debug (MsgInstallingAt module version (remote_url repo));
            EvInstallFiles module version folder true] ++
           (if silent then []
            else [EvLog Info (MsgInclude (include_name module) module_dir)]) ++
           [EvLoadManifest;
            EvUpdate (remote_url repo) (repo_path repo) module version]
  | FetchFailed partial =>
      b = false ∧
      tree st1 = write_files module_dir partial (ensure_dir folder (tree st)) ∧
      modules_json_file st1 = modules_json_file st ∧
      modules_json st1 = modules_json st ∧
      t1 = [EvLog Info (MsgInstalling (force (self st)) module);
            EvLog Debug (MsgInstallingAt module version (remote_url repo));
            EvInstallFiles module version folder false]
  end.
Proof.
  unfold download_and_record, install_module_files. run.
  fold (module_dir_of (self st) module).
  destruct (fetch_module_files _ version module); simpl.
  - destruct silent; simpl; by intros [= <- <- <-].
  - by intros [= <- <- <-].
Qed.

(** ** Everything before the download *)

Lemma prepare_spec module st p st1 t1 :
  prepare env module st = (p, st1, t1) →
  let repo := modules_repo (self st) in
  let checked := checked_manifest env st in
  modules_json_file st1 = modules_json_file st ∧
  Forall (λ e, materialization e = false ∧ manifest_record e = false) t1 ∧
  ((self st1 = self st ∧ Forall (λ e, confirm_event e = false) t1) ∨
   (∃ m, force (self st) = false ∧
         self st1 = set_force (confirm_force env m) (self st) ∧
         Forall (λ e, confirm_event e = true → e = EvConfirmForce m) t1 ∧
         (∀ m0, module = Some m0 → m = m0) ∧
         (confirm_force env m = false → p = None))) ∧
  match p with
  | None =>
      tree st1 = tree st ∧ Forall (λ e, mutating e = false) t1
  | Some (m, v) =>
      let cur := current_version_in checked (self st) m in
      let module_dir := module_dir_of (self st) m in
      module_exists repo m = true ∧
      (truthy m = true → m ∈ get_avail_modules repo) ∧
      (∀ m0, module = Some m0 → m = m0) ∧
      resolved_version env (self st) m cur = Some v ∧
      (truthy_opt (sha (self st)) = true →
         sha_exists_on_branch repo (default EmptyString (sha (self st))) = true) ∧
      if force (self st1) then
        tree st1 = delete module_dir (tree st) ∧
        EvClearModuleDir module_dir ∈ t1 ∧
        ∀ url d n,
          lookup_entry (modules_json st1) url d n =
          if decide (d = repo_path repo ∧ n = m) then None
          else lookup_entry checked url d n
      else
        tree st1 = tree st ∧ modules_json st1 = checked ∧
        (is_Some cur → tree st !! module_dir = None)
  end.
Proof.
  unfold checked_manifest, prepare, bind.
  destruct (check_request env st) as [[ok sa] ta] eqn:Ha.
  apply check_request_spec in Ha as (Hsa & Hta & Hfa & Hea & Hoka).
  assert (Forall (λ e, materialization e = false ∧ manifest_record e = false) ta
          ∧ Forall (λ e, confirm_event e = false) ta
          ∧ Forall (λ e, mutating e = false) ta) as (Ha1 & Ha2 & Ha3).
  { repeat split; (eapply Forall_impl; [exact Hea|]); by intros []. }
  destruct ok; simpl.
  2:{ intros [= <- <- <-]. rewrite app_nil_r. repeat split; auto. }
  destruct (Hoka eq_refl) as (Hja & Hsha). clear Hoka.
  destruct (select_module env module sa) as [[chosen sb] tb] eqn:Hb.
  apply select_module_spec in Hb as (-> & Heb & Hchosen).
  assert (Forall (λ e, materialization e = false ∧ manifest_record e = false) tb
          ∧ Forall (λ e, confirm_event e = false) tb
          ∧ Forall (λ e, mutating e = false) tb) as (Hb1 & Hb2 & Hb3).
  { repeat split; (eapply Forall_impl; [exact Heb|]); by intros []. }
  destruct chosen as [m|]; simpl.
  2:{ intros [= <- <- <-]. rewrite app_nil_r.
      repeat split; auto using Forall_app_2. }
  destruct (Hchosen m eq_refl) as (Hex & Hav & Hm0). clear Hchosen.
  rewrite Hsa in Hex, Hav.
  destruct (check_installed env m sa) as [[r sc] tc] eqn:Hc.
  apply check_installed_spec in Hc as (Htc & Hfc & Hjc & Hec & Hcase).
  assert (Forall (λ e, materialization e = false ∧ manifest_record e = false) tc
          ∧ Forall (λ e, mutating e = false) tc) as (Hc1 & Hc3).
  { repeat split; (eapply Forall_impl; [exact Hec|]); by intros []. }
  assert (current_version_in (modules_json sa) (self sa) m
          = current_version_in (reconcile env (tree st) (modules_json_file st)) (self st) m)
    as Hcur by (by rewrite Hja, Hsa).
  set (cur := current_version_in (reconcile env (tree st) (modules_json_file st)) (self st) m) in *.
  assert (∀ tail,
    Forall (λ e, confirm_event e = false) tail →
    (self sc = self st ∧ Forall (λ e, confirm_event e = false) (ta ++ tb ++ tc ++ tail)) ∨
    (∃ m', force (self st) = false ∧
           self sc = set_force (confirm_force env m') (self st) ∧
           Forall (λ e, confirm_event e = true → e = EvConfirmForce m') (ta ++ tb ++ tc ++ tail) ∧
           (∀ m0, module = Some m0 → m' = m0) ∧
           (confirm_force env m' = false → r = None))) as Hself.
  { intros tail Htail.
    destruct (installed_here sa m && negb (force (self sa))) eqn:Hasked.
    - right. exists m. destruct Hcase as (Hs & Hr & Hev).
      apply andb_true_iff in Hasked as [_ Hf%negb_true_iff].
      rewrite Hsa in Hs, Hf. repeat split; try done.
      + repeat apply Forall_app_2; auto using Forall_confirm_weaken.
      + intros Hno. by rewrite Hr, Hno.
    - left. destruct Hcase as (Hs & Hr & Hev). rewrite Hsa in Hs.
      split; [done|]. by repeat apply Forall_app_2. }
  destruct r as [cur'|]; simpl.
  2:{ intros [= <- <- <-].
      specialize (Hself [] (Forall_nil_2 _)). rewrite !app_nil_r in *.
      repeat split; auto using Forall_app_2; try congruence.
      destruct Hself as [[? ?]|(m' & ? & ? & ? & ? & ?)];
        [left | right; exists m']; repeat split; try done. }
  assert (cur' = cur ∧
          (force (self sc) = false → is_Some cur → tree st !! module_dir_of (self st) m = None))
    as [-> Habsent].
  { destruct (installed_here sa m && negb (force (self sa))) eqn:Hasked.
    - destruct Hcase as (Hs & Hr & _).
      destruct (confirm_force env m); [|done].
      split; [congruence|]. rewrite Hs. done.
    - destruct Hcase as (Hs & Hr & _). split; [congruence|].
      rewrite Hs. intros Hf Hsome.
      rewrite Hf in Hasked. simpl in Hasked. rewrite andb_true_r in Hasked.
      unfold installed_here in Hasked. rewrite Hcur in Hasked.
      destruct Hsome as [x Hx]. rewrite Hx in Hasked.
      apply bool_decide_eq_false in Hasked.
      rewrite Hta, Hsa in Hasked.
      by apply eq_None_not_Some. }
  destruct (choose_version env m cur sc) as [[rv sd] td] eqn:Hd.
  apply choose_version_spec in Hd as (-> & Hed & Hrv).
  assert (Forall (λ e, materialization e = false ∧ manifest_record e = false) td
          ∧ Forall (λ e, confirm_event e = false) td
          ∧ Forall (λ e, mutating e = false) td) as (Hd1 & Hd2 & Hd3).
  { repeat split; (eapply Forall_impl; [exact Hed|]); by intros []. }
  assert (resolved_version env (self sc) m cur = resolved_version env (self st) m cur) as Hres.
  { destruct (Hself [] (Forall_nil_2 _)) as [[-> _]|(m' & _ & -> & _)]; done. }
  rewrite Hres in Hrv. clear Hres.
  destruct rv as [v|]; simpl.
  2:{ intros [= <- <- <-].
      specialize (Hself td Hd2). rewrite !app_nil_r in *.
      repeat split; auto using Forall_app_2; try congruence.
      destruct Hself as [[? ?]|(m' & ? & ? & ? & ? & ?)];
        [left | right; exists m']; repeat split; try done. }
  destruct (remove_installed m sc) as [[[] se] te] eqn:He.
  apply remove_installed_spec in He as (Hse & Hfe & Hee & Hpurge).
  assert (Forall (λ e, materialization e = false ∧ manifest_record e = false) te
          ∧ Forall (λ e, confirm_event e = false) te) as (He1 & He2).
  { repeat split; (eapply Forall_impl; [exact Hee|]); by intros []. }
  intros [= <- <- <-]. rewrite ?app_nil_r.
  assert (module_dir_of (self sc) m = module_dir_of (self st) m
          ∧ repo_path (modules_repo (self sc)) = repo_path (modules_repo (self st)))
    as [Hdir Hpath].
  { destruct (Hself [] (Forall_nil_2 _)) as [[-> _]|(m' & _ & -> & _)]; done. }
  split; [congruence|]. split; [auto using Forall_app_2|]. split.
  { destruct (Hself (td ++ te)) as [[? ?]|(m' & ? & ? & ? & ? & Hno)].
    - by apply Forall_app_2.
    - left. split; [congruence | done].
    - right. exists m'. split; [done|]. split; [congruence|].
      split; [done|]. split; [done|].
      intros Hm'. by specialize (Hno Hm'). }
  repeat split; try done.
  rewrite Hse. destruct (force (self sc)) eqn:Hforce.
  - destruct Hpurge as (Ht & Hin & Hl). rewrite Hdir in *. rewrite Hpath in Hl.
    repeat split.
    + congruence.
    + set_solver.
    + intros url d n. rewrite Hl. case_decide; [done|]. by rewrite Hjc, Hja.
  - destruct Hpurge as (Ht & Hj & _). repeat split; try congruence.
    by apply Habsent.
Qed.

End Blocks.

(** ** [install] as a whole *)

Lemma install_run env module silent st :
  install env module silent st =
  let '(p, st1, t1) := prepare env module st in
  match p with
  | None => (false, st1, t1 ++ [])
  | Some (m, v) =>
      let '(b, st2, t2) := download_and_record m v silent st1 in
      (b, st2, t1 ++ t2)
  end.
Proof.
  unfold install, bind.
  destruct (prepare env module st) as [[[[m v]|] st1] t1]; reflexivity.
Qed.

(** The guards and the name check let a well-formed request through. *)
Lemma check_request_passes env st :
  repo_type (self st) ≠ "modules" →
  has_valid_directory env (self st) (tree st) = true →
  prompt (self st) && bool_decide (is_Some (sha (self st))) = false →
  (truthy_opt (sha (self st)) = true →
   sha_exists_on_branch (modules_repo (self st)) (default EmptyString (sha (self st))) = true) →
  result (check_request env st) = true.
Proof.
  intros Hty Hvalid Hexcl Hsha. unfold check_request. run.
  apply String.eqb_neq in Hty. rewrite Hty, Hvalid. simpl. rewrite Hexcl.
  destruct (truthy_opt (sha (self st))); [|done].
  by rewrite Hsha.
Qed.

Lemma select_module_passes env m st :
  (truthy m = true → m ∈ get_avail_modules (modules_repo (self st))) →
  module_exists (modules_repo (self st)) m = true →
  result (select_module env (Some m) st) = Some m.
Proof.
  intros Hav Hex. unfold select_module. run.
  destruct (truthy m); simpl.
  - rewrite bool_decide_eq_true_2 by auto. simpl. by rewrite Hex.
  - by rewrite Hex.
Qed.

Lemma prepare_reaches env m st :
  repo_type (self st) ≠ "modules" →
  has_valid_directory env (self st) (tree st) = true →
  prompt (self st) && bool_decide (is_Some (sha (self st))) = false →
  (truthy_opt (sha (self st)) = true →
   sha_exists_on_branch (modules_repo (self st)) (default EmptyString (sha (self st))) = true) →
  (truthy m = true → m ∈ get_avail_modules (modules_repo (self st))) →
  module_exists (modules_repo (self st)) m = true →
  (force (self st) = false →
   is_Some (current_version_in (checked_manifest env st) (self st) m) →
   is_Some (tree st !! module_dir_of (self st) m) →
   confirm_force env m = true) →
  is_Some (resolved_version env (self st) m
             (current_version_in (checked_manifest env st) (self st) m)) →
  is_Some (result (prepare env (Some m) st)).
Proof.
  intros Hty Hvalid Hexcl Hsha Hav Hex Hconfirm [v Hv].
  pose proof (check_request_passes env st Hty Hvalid Hexcl Hsha) as Hok.
  unfold prepare, bind.
  destruct (check_request env st) as [[ok sa] ta] eqn:Ha.
  unfold result in Hok. simpl in Hok. subst ok.
  apply check_request_spec in Ha as (Hsa & Hta & Hfa & _ & Hoka).
  destruct (Hoka eq_refl) as [Hja _]. simpl.
  rewrite <- Hsa in Hav, Hex.
  pose proof (select_module_passes env m sa Hav Hex) as Hsel.
  destruct (select_module env (Some m) sa) as [[chosen sb] tb] eqn:Hb.
  unfold result in Hsel. simpl in Hsel. subst chosen.
  apply select_module_spec in Hb as (-> & _ & _). simpl.
  destruct (check_installed env m sa) as [[r sc] tc] eqn:Hc.
  apply check_installed_spec in Hc as (Htc & Hfc & Hjc & _ & Hcase).
  assert (current_version_in (modules_json sa) (self sa) m
          = current_version_in (checked_manifest env st) (self st) m) as Hcur
    by (unfold checked_manifest; by rewrite Hja, Hsa).
  assert (r = Some (current_version_in (checked_manifest env st) (self st) m)
          ∧ resolved_version env (self sc) m
              (current_version_in (checked_manifest env st) (self st) m) = Some v)
    as [-> Hres].
  { destruct (installed_here sa m && negb (force (self sa))) eqn:Hasked.
    - destruct Hcase as (Hs & -> & _).
      apply andb_true_iff in Hasked as [Hhere Hf%negb_true_iff].
      unfold installed_here in Hhere. rewrite Hcur in Hhere.
      destruct (current_version_in (checked_manifest env st) (self st) m) eqn:Hc';
        [|done].
      apply bool_decide_eq_true in Hhere. rewrite Hta, Hsa in Hhere.
      rewrite Hsa in Hf.
      rewrite Hconfirm by eauto. split; [by rewrite Hcur|].
      rewrite Hs. unfold resolved_version in *. simpl. by rewrite Hsa.
    - destruct Hcase as (Hs & -> & _). split; [by rewrite Hcur|].
      by rewrite Hs, Hsa. }
  simpl.
  destruct (choose_version env m _ sc) as [[rv sd] td] eqn:Hd.
  apply choose_version_spec in Hd as (-> & _ & ->). rewrite Hres. simpl.
  destruct (remove_installed m sc) as [[[] se] te]. by eexists.
Qed.

(** The trace of [prepare]: the guards, then the name check, then the rest. *)
Lemma prepare_trace env module st :
  ∃ tb tc,
    emitted (prepare env module st) = emitted (check_request env st) ++ tb ++ tc ∧
    (tb = [] ∨ tb = emitted (select_module env module (final (check_request env st)))) ∧
    Forall (λ e, later_event e = true) tc.
Proof.
  unfold prepare, bind, emitted, final.
  destruct (check_request env st) as [[ok sa] ta]. simpl.
  destruct ok; simpl; [|exists [], []; by auto].
  destruct (select_module env module sa) as [[chosen sb] tb] eqn:Hb. simpl.
  destruct chosen as [m|]; simpl.
  2:{ exists tb, []. repeat split; auto. }
  destruct (check_installed env m sb) as [[r sc] tc] eqn:Hc.
  apply check_installed_spec in Hc as (_ & _ & _ & Hec & _).
  assert (Forall (λ e, later_event e = true) tc) as Hc1.
  { eapply Forall_impl; [exact Hec|]. unfold later_event. by intros [] ?. }
  destruct r as [cur|]; simpl.
  2:{ exists tb, tc. rewrite app_nil_r. repeat split; auto. }
  destruct (choose_version env m cur sc) as [[rv sd] td] eqn:Hd.
  apply choose_version_spec in Hd as (-> & Hed & _).
  assert (Forall (λ e, later_event e = true) td) as Hd1.
  { eapply Forall_impl; [exact Hed|]. unfold later_event. by intros [] ?. }
  destruct rv as [v|]; simpl.
  2:{ exists tb, (tc ++ td). rewrite app_nil_r.
      repeat split; auto using Forall_app_2. }
  destruct (remove_installed m sc) as [[[] se] te] eqn:He.
  apply remove_installed_spec in He as (_ & _ & Hee & _).
  assert (Forall (λ e, later_event e = true) te) as He1.
  { eapply Forall_impl; [exact Hee|]. unfold later_event. by intros [] ?. }
  exists tb, (tc ++ td ++ te). rewrite app_nil_r.
  repeat split; auto using Forall_app_2.
Qed.

(** ** Counting the entries of a manifest *)

Lemma elem_of_entries (m : gmap string (gmap string (gmap string InstalledModule)))
    url d name e :
  (url, d, name, e) ∈ entries m ↔ lookup_entry m url d name = Some e.
Proof.
  unfold entries, lookup_entry. rewrite list_elem_of_bind. split.
  - intros ([url' rc] & Hin & Hm).
    apply list_elem_of_bind in Hin as ([d' dm] & Hin & Hrc).
    apply list_elem_of_bind in Hin as ([n' e'] & Hin & Hdm).
    apply list_elem_of_singleton in Hin as [= -> -> -> ->].
    apply elem_of_map_to_list in Hm, Hrc, Hdm. by rewrite Hm, Hrc.
  - destruct (m !! url) as [rc|] eqn:Hm; [|done].
    destruct (rc !! d) as [dm|] eqn:Hrc; [|done]. intros Hdm.
    exists (url, rc). split; [|by apply elem_of_map_to_list].
    apply list_elem_of_bind. exists (d, dm). split; [|by apply elem_of_map_to_list].
    apply list_elem_of_bind. exists (name, e). split; [set_solver|].
    by apply elem_of_map_to_list.
Qed.

Lemma NoDup_entries (m : gmap string (gmap string (gmap string InstalledModule))) :
  NoDup (entries m).
Proof.
  unfold entries. apply NoDup_bind; [| |apply NoDup_map_to_list].
  - intros [u1 rc1] [u2 rc2] [[[u d] n] e] H1 H2.
    intros ([d1 dm1] & Hx & _)%list_elem_of_bind.
    intros ([d2 dm2] & Hy & _)%list_elem_of_bind.
    apply list_elem_of_bind in Hx as ([n1 e1] & Hx & _).
    apply list_elem_of_bind in Hy as ([n2 e2] & Hy & _).
    apply list_elem_of_singleton in Hx as [= -> -> -> ->].
    apply list_elem_of_singleton in Hy as [= -> _ _ _].
    apply elem_of_map_to_list in H1, H2. congruence.
  - intros [u rc] _. apply NoDup_bind; [| |apply NoDup_map_to_list].
    + intros [d1 dm1] [d2 dm2] [[[u' d] n] e] H1 H2.
      intros ([n1 e1] & Hx & _)%list_elem_of_bind.
      intros ([n2 e2] & Hy & _)%list_elem_of_bind.
      apply list_elem_of_singleton in Hx as [= -> -> -> ->].
      apply list_elem_of_singleton in Hy as [= -> _ _].
      apply elem_of_map_to_list in H1, H2. congruence.
    + intros [d dm] _. apply NoDup_bind; [| |apply NoDup_map_to_list].
      * intros [n1 e1] [n2 e2] x _ _ Hx Hy.
        apply list_elem_of_singleton in Hx as ->.
        by apply list_elem_of_singleton in Hy as [= -> ->].
      * intros [n e] _. apply NoDup_singleton.
Qed.

Lemma length_filter_unique {A} (P : A → Prop) `{∀ x, Decision (P x)}
    (l : list A) (a : A) :
  NoDup l → a ∈ l → P a → (∀ x, x ∈ l → P x → x = a) →
  length (filter P l) = 1.
Proof.
  intros Hnd Hin Ha Huniq.
  assert (filter P l ≡ₚ [a]) as ->; [|done].
  apply NoDup_Permutation.
  - by apply NoDup_filter.
  - apply NoDup_singleton.
  - intros x. rewrite list_elem_of_filter, list_elem_of_singleton. naive_solver.
Qed.

Lemma entry_count_one (m : gmap string (gmap string (gmap string InstalledModule)))
    url path name e :
  lookup_entry m url path name = Some e → entry_count m url path name = 1.
Proof.
  intros Hl. unfold entry_count.
  apply (length_filter_unique _ _ (url, path, name, e)).
  - apply NoDup_entries.
  - by apply elem_of_entries.
  - done.
  - intros [[[u d] n] e'] Hin (Hu & Hd & Hn). simpl in *. subst.
    apply elem_of_entries in Hin. congruence.
Qed.

(** ** The project tree after a download *)

Lemma write_files_fresh (t : gmap string (gmap string (list byte)))
    (folder module_dir : string) (files : gmap string (list byte)) :
  t !! module_dir = None →
  write_files module_dir files (ensure_dir folder t) !! module_dir = Some files.
Proof.
  intros Hnone. unfold write_files, ensure_dir. rewrite lookup_insert_eq. f_equal.
  destruct (t !! folder) eqn:Hf.
  - rewrite Hnone. simpl. apply (right_id_L ∅ (∪)).
  - destruct (decide (folder = module_dir)) as [->|Hne].
    + rewrite lookup_insert_eq. simpl. apply (right_id_L ∅ (∪)).
    + rewrite lookup_insert_ne, Hnone by done. simpl. apply (right_id_L ∅ (∪)).
Qed.

(** ** Successful installs *)

Lemma prepare_self env module st p st1 t1 :
  prepare env module st = (p, st1, t1) →
  ∃ b, self st1 = set_force b (self st).
Proof.
  intros (_ & _ & [[-> _]|(m & _ & -> & _)] & _)%prepare_spec.
  - exists (force (self st)). by destruct (self st).
  - by eexists.
Qed.

Lemma install_true env module silent st :
  let r := install env module silent st in
  let repo := modules_repo (self st) in
  result r = true →
  ∃ m v files,
    (∀ m0, module = Some m0 → m = m0) ∧
    resolved_version env (self st) m
      (current_version_in (checked_manifest env st) (self st) m) = Some v ∧
    fetch_module_files repo v m = Fetched files ∧
    modules_json_file (final r) =
      record_install (remote_url repo) (repo_path repo) m v (modules_json_file st).
Proof.
  intros r repo. subst r repo. rewrite install_run.
  destruct (prepare env module st) as [[p st1] t1] eqn:Hp.
  destruct (prepare_self _ _ _ _ _ _ Hp) as [b0 Hb0].
  apply prepare_spec in Hp as (Hfile & _ & _ & Hp).
  destruct p as [[m v]|]; unfold result, final; simpl; [|done].
  destruct (download_and_record m v silent st1) as [[b st2] t2] eqn:Hd.
  apply download_and_record_spec in Hd as (Hs2 & Hd). simpl. intros ->.
  rewrite Hb0 in Hd. simpl in Hd.
  change (module_dir_of (set_force b0 (self st)) m)
    with (module_dir_of (self st) m) in Hd.
  change (install_folder_of (set_force b0 (self st)))
    with (install_folder_of (self st)) in Hd.
  destruct (fetch_module_files _ v m) as [files|partial] eqn:Hfetch;
    [|by destruct Hd].
  destruct Hd as (_ & _ & Hf2 & _ & _).
  destruct Hp as (_ & _ & Hm & Hres & _ & _).
  exists m, v, files. repeat split; try done. congruence.
Qed.

(** The trace of the download block: two log lines, the download, and
    nothing after it that is a download. *)
Lemma download_trace module version silent st b st1 t1 :
  download_and_record module version silent st = (b, st1, t1) →
  ∃ l1 l2 ok after,
    t1 = [EvLog Info l1; EvLog Debug l2;
          EvInstallFiles module version (install_folder_of (self st)) ok] ++ after ∧
    Forall (λ e, materialization e = false) after.
Proof.
  intros Hd. apply download_and_record_spec in Hd as (_ & Hd).
  destruct (fetch_module_files _ version module);
    destruct Hd as (_ & _ & _ & _ & ->); [destruct silent|];
    do 4 eexists; (split; [reflexivity|]); by repeat constructor.
Qed.

(** ** Properties of [install] *)

Ltac decide_goal := apply (bool_decide_unpack _); vm_compute; exact I.

(** C1 (as amended): when [force] is set by the time the install reaches
    the download, then before the download starts the module directory has
    been purged and the working copy of the manifest has lost every entry
    whose repository path and name are the target's, under the target
    remote and under every other remote alike; entries with another
    repository path or another name are kept.  No download event precedes
    this. *)
Theorem c1_purge_before_download env module silent st m v :
  let r := prepare env module st in
  result r = Some (m, v) →
  force (self (final r)) = true →
  install env module silent st =
    (let '(b, st2, t2) := download_and_record m v silent (final r) in
     (b, st2, emitted r ++ t2)) ∧
  Forall (λ e, materialization e = false) (emitted r) ∧
  EvClearModuleDir (module_dir_of (self st) m) ∈ emitted r ∧
  tree (final r) !! module_dir_of (self st) m = None ∧
  ∀ url d n,
    lookup_entry (modules_json (final r)) url d n =
    if decide (d = repo_path (modules_repo (self st)) ∧ n = m) then None
    else lookup_entry (checked_manifest env st) url d n.
Proof.
  intros r Hres Hforce. rewrite install_run. subst r.
  unfold result, final, emitted in *.
  destruct (prepare env module st) as [[p st1] t1] eqn:Hp. simpl in *. subst p.
  apply prepare_spec in Hp as (_ & Hev & _ & Hsome). simpl in Hsome.
  destruct Hsome as (_ & _ & _ & _ & _ & Hcase). rewrite Hforce in Hcase.
  destruct Hcase as (Htree & Hclear & Hlookup).
  split; [done|]. split; [|split; [done|split; [|done]]].
  - eapply Forall_impl; [exact Hev|]. by intros e [? _].
  - rewrite Htree. apply lookup_delete_eq.
Qed.

Lemma c1_purge_before_download_witness :
  let st := Demo.start (Demo.obj true false None) Demo.foo_installed Demo.two_remotes in
  let r := prepare (Demo.env false) (Some "foo") st in
  result r = Some ("foo", "abc123") ∧
  force (self (final r)) = true ∧
  tree (final r) !! module_dir_of (self st) "foo" = None.
Proof.
  intros st r.
  assert (result r = Some ("foo", "abc123")) as H1 by (vm_compute; reflexivity).
  assert (force (self (final r)) = true) as H2 by (vm_compute; reflexivity).
  split; [exact H1|]. split; [exact H2|].
  exact (proj1 (proj2 (proj2 (proj2
    (c1_purge_before_download (Demo.env false) (Some "foo") false st "foo" "abc123" H1 H2))))).
Defined.

(** C1, as stated, fails: with [foo] recorded under two remotes that share
    the repository path, a forced install of [foo] from the first remote
    calls [remove_entry] for the second remote too, and the entry of the
    second remote is gone when the download starts. *)
Lemma c1_other_remote_entry_removed :
  let st := Demo.start (Demo.obj true false None) Demo.foo_installed Demo.two_remotes in
  let r := prepare (Demo.env false) (Some "foo") st in
  force (self st) = true ∧
  remote_url (modules_repo (self st)) = Demo.url1 ∧
  Demo.url2 ≠ Demo.url1 ∧
  lookup_entry (checked_manifest (Demo.env false) st) Demo.url1 Demo.path "foo"
    = Some {| revision := "r1" |} ∧
  lookup_entry (checked_manifest (Demo.env false) st) Demo.url2 Demo.path "foo"
    = Some {| revision := "r2" |} ∧
  is_Some (tree st !! module_dir_of (self st) "foo") ∧
  result r = Some ("foo", "abc123") ∧
  EvRemoveEntry "foo" Demo.url2 Demo.path ∈ emitted r ∧
  lookup_entry (modules_json (final r)) Demo.url2 Demo.path "foo" = None.
Proof.
  intros st r. repeat split; try (vm_compute; reflexivity); try decide_goal.
Qed.




(** C3 (as amended): a request with both a pinned revision and the
    interactive mode fails, without any query to the remote and without any
    write to the project; when the self-install guard and the directory
    check let it through, it fails with the usage error, after the
    directory check, the structure check, the manifest load and the
    consistency check have run. *)
Theorem c3_sha_and_prompt_rejected env module silent st :
  let r := install env module silent st in
  prompt (self st) = true →
  is_Some (sha (self st)) →
  result r = false ∧
  Forall (λ e, remote_call e = false) (emitted r) ∧
  Forall (λ e, filesystem_write e = false) (emitted r) ∧
  tree (final r) = tree st ∧
  modules_json_file (final r) = modules_json_file st ∧
  (repo_type (self st) ≠ "modules" →
   has_valid_directory env (self st) (tree st) = true →
   emitted r = [EvValidDirectory; EvCheckStructure; EvLoadManifest;
                EvCheckUpToDate; EvLog Error MsgShaAndPrompt]).
Proof.
  intros r Hprompt Hsha. subst r.
  unfold install, prepare, check_request. run.
  rewrite Hprompt, (bool_decide_eq_true_2 _ Hsha). simpl.
  destruct (String.eqb (repo_type (self st)) "modules") eqn:Hty; simpl.
  - repeat split; try done; try by repeat constructor.
    intros Hne. by apply String.eqb_eq in Hty.
  - destruct (has_valid_directory env (self st) (tree st)); simpl;
      repeat split; try done; by repeat constructor.
Qed.

Lemma c3_sha_and_prompt_rejected_witness :
  let st := Demo.start (Demo.obj false true (Some "abc123")) ∅ ∅ in
  let r := install (Demo.env false) (Some "foo") false st in
  prompt (self st) = true ∧ is_Some (sha (self st)) ∧
  result r = false ∧ Forall (λ e, remote_call e = false) (emitted r).
Proof.
  intros st r.
  assert (prompt (self st) = true) as H1 by reflexivity.
  assert (is_Some (sha (self st))) as H2 by (by eexists).
  split; [exact H1|]. split; [exact H2|].
  destruct (c3_sha_and_prompt_rejected (Demo.env false) (Some "foo") false st H1 H2)
    as (H3 & H4 & _).
  split; [exact H3 | exact H4].
Defined.

(** C3, as stated, fails: the usage error comes after the directory check,
    the manifest load and the consistency check, which all read the
    project. *)
Lemma c3_rejected_after_consistency_check :
  let st := Demo.start (Demo.obj false true (Some "abc123")) ∅ ∅ in
  let r := install (Demo.env false) (Some "foo") false st in
  prompt (self st) = true ∧ sha (self st) = Some "abc123" ∧
  result r = false ∧
  emitted r = [EvValidDirectory; EvCheckStructure; EvLoadManifest;
               EvCheckUpToDate; EvLog Error MsgShaAndPrompt] ∧
  EvCheckUpToDate ∈ emitted r ∧
  existsb filesystem_access (emitted r) = true.
Proof.
  intros st r. repeat split; try (vm_compute; reflexivity). decide_goal.
Qed.

(** A request that names a non-empty module absent from the catalog
    returns [False], and writes neither the project tree nor the manifest:
    line 65 rejects it. *)
Lemma nonempty_unknown_module_rejected env silent st m :
  let r := install env (Some m) silent st in
  m ≠ EmptyString →
  m ∉ get_avail_modules (modules_repo (self st)) →
  result r = false ∧
  Forall (λ e, filesystem_write e = false) (emitted r) ∧
  tree (final r) = tree st ∧
  modules_json_file (final r) = modules_json_file st.
Proof.
  intros r Hne Hnot. subst r. rewrite install_run.
  destruct (prepare env (Some m) st) as [[p st1] t1] eqn:Hp.
  apply prepare_spec in Hp as (Hfile & _ & _ & Hp).
  destruct p as [[m' v']|]; simpl in Hp.
  - exfalso. destruct Hp as (_ & Hav & Hm & _).
    rewrite <- (Hm m eq_refl) in Hnot, Hne. apply Hnot, Hav.
    unfold truthy. apply negb_true_iff. by apply String.eqb_neq.
  - destruct Hp as (Htree & Hev). unfold result, final, emitted. simpl.
    rewrite app_nil_r. repeat split; try done.
    eapply Forall_impl; [exact Hev|]. by intros [].
Qed.




(** C5: installing [X] from a remote twice, the second time with [force],
    leaves exactly one manifest entry for [X] under that remote and
    repository path, and its revision is the one resolved by the second
    install. *)
Theorem c5_force_reinstall_replaces env1 env2 silent1 silent2 X obj2 st0 :
  let r1 := install env1 (Some X) silent1 st0 in
  let st1 := with_self obj2 (final r1) in
  let r2 := install env2 (Some X) silent2 st1 in
  let R := remote_url (modules_repo obj2) in
  let P := repo_path (modules_repo obj2) in
  remote_url (modules_repo (self st0)) = R →
  repo_path (modules_repo (self st0)) = P →
  force obj2 = true →
  result r1 = true →
  result r2 = true →
  ∃ v2,
    resolved_version env2 obj2 X
      (current_version_in (checked_manifest env2 st1) obj2 X) = Some v2 ∧
    lookup_entry (modules_json_file (final r2)) R P X = Some {| revision := v2 |} ∧
    entry_count (modules_json_file (final r2)) R P X = 1.
Proof.
  intros r1 st1 r2 R P _ _ _ _ Htrue.
  apply install_true in Htrue as (m & v2 & files & Hm & Hres & _ & Hfile).
  pose proof (Hm X eq_refl) as ->. exists v2.
  assert (lookup_entry (modules_json_file (final r2)) R P X = Some {| revision := v2 |})
    as Hl.
  { subst r2 R P. rewrite Hfile, lookup_record_install. by rewrite decide_True. }
  split; [exact Hres|]. split; [exact Hl|]. by eapply entry_count_one.
Qed.

Lemma c5_force_reinstall_replaces_witness :
  let st0 := Demo.start (Demo.obj false false None) ∅ ∅ in
  let obj2 := Demo.obj true false (Some "def456") in
  let r1 := install (Demo.env false) (Some "foo") false st0 in
  let r2 := install (Demo.env false) (Some "foo") false (with_self obj2 (final r1)) in
  result r1 = true ∧ result r2 = true ∧
  lookup_entry (modules_json_file (final r1)) Demo.url1 Demo.path "foo"
    = Some {| revision := "abc123" |} ∧
  ∃ v2,
    resolved_version (Demo.env false) obj2 "foo"
      (current_version_in
         (checked_manifest (Demo.env false) (with_self obj2 (final r1))) obj2 "foo")
      = Some v2 ∧
    lookup_entry (modules_json_file (final r2)) Demo.url1 Demo.path "foo"
      = Some {| revision := v2 |} ∧
    entry_count (modules_json_file (final r2)) Demo.url1 Demo.path "foo" = 1.
Proof.
  intros st0 obj2 r1 r2.
  assert (result r1 = true) as H1 by (vm_compute; reflexivity).
  assert (result r2 = true) as H2 by (vm_compute; reflexivity).
  split; [exact H1|]. split; [exact H2|].
  split; [vm_compute; reflexivity|].
  exact (c5_force_reinstall_replaces (Demo.env false) (Demo.env false) false false
           "foo" obj2 st0 eq_refl eq_refl eq_refl H1 H2).
Defined.

(** C6: with no [force], no pinned sha and no interactive mode, for a
    module of the catalog that exists on the branch and whose directory is
    absent, when the remote reports [v] as its latest revision and delivers
    [files] for it, the install succeeds, the manifest records [v] for the
    module, and the module directory holds exactly [files]. *)
Theorem c6_latest_version_default env silent st m v files :
  let r := install env (Some m) silent st in
  let repo := modules_repo (self st) in
  repo_type (self st) ≠ "modules" →
  has_valid_directory env (self st) (tree st) = true →
  force (self st) = false →
  sha (self st) = None →
  prompt (self st) = false →
  m ∈ get_avail_modules repo →
  module_exists repo m = true →
  get_latest_module_version repo m = v →
  fetch_module_files repo v m = Fetched files →
  tree st !! module_dir_of (self st) m = None →
  result r = true ∧
  lookup_entry (modules_json_file (final r)) (remote_url repo) (repo_path repo) m
    = Some {| revision := v |} ∧
  tree (final r) !! module_dir_of (self st) m = Some files.
Proof.
  intros r repo Hty Hvalid Hforce Hsha Hprompt Hav Hex Hlatest Hfetch Habsent.
  subst repo.
  assert (∀ cur, resolved_version env (self st) m cur = Some v) as Hres.
  { intros cur. unfold resolved_version. by rewrite Hsha, Hprompt, Hlatest. }
  destruct (prepare_reaches env m st) as [[m' v'] Hreach]; try done.
  { by rewrite Hprompt. }
  { by rewrite Hsha. }
  { intros _ _ [x Hx]. by rewrite Habsent in Hx. }
  { by rewrite Hres. }
  subst r. rewrite install_run.
  unfold result in Hreach.
  destruct (prepare env (Some m) st) as [[p st1] t1] eqn:Hp.
  simpl in Hreach. subst p.
  destruct (prepare_self _ _ _ _ _ _ Hp) as [b0 Hb0].
  apply prepare_spec in Hp as (Hfile & _ & _ & Hp). simpl in Hp.
  destruct Hp as (_ & _ & Hm & Hv & _ & Hcase).
  pose proof (Hm m eq_refl) as ->. rewrite Hres in Hv. injection Hv as <-.
  destruct (download_and_record m v silent st1) as [[b st2] t2] eqn:Hd.
  apply download_and_record_spec in Hd as (Hs2 & Hd).
  rewrite Hb0 in Hd. simpl in Hd.
  change (module_dir_of (set_force b0 (self st)) m)
    with (module_dir_of (self st) m) in Hd.
  change (install_folder_of (set_force b0 (self st)))
    with (install_folder_of (self st)) in Hd.
  rewrite Hfetch in Hd. destruct Hd as (-> & Htree & Hf2 & _ & _).
  unfold result, final. simpl. split; [done|]. split.
  - rewrite Hf2, Hfile, lookup_record_install. by rewrite decide_True.
  - rewrite Htree. apply write_files_fresh.
    destruct (force (self st1)).
    + destruct Hcase as (-> & _). apply lookup_delete_eq.
    + by destruct Hcase as (-> & _).
Qed.

Lemma c6_latest_version_default_witness :
  let st := Demo.start (Demo.obj false false None) ∅ ∅ in
  let r := install (Demo.env false) (Some "foo") false st in
  get_latest_module_version (modules_repo (self st)) "foo" = "abc123" ∧
  fetch_module_files (modules_repo (self st)) "abc123" "foo" = Fetched Demo.foo_files ∧
  result r = true ∧
  lookup_entry (modules_json_file (final r)) Demo.url1 Demo.path "foo"
    = Some {| revision := "abc123" |} ∧
  tree (final r) !! "./modules/nf-core/modules/foo" = Some Demo.foo_files.
Proof.
  intros st r. split; [reflexivity|]. split; [reflexivity|].
  apply (c6_latest_version_default (Demo.env false) false st "foo" "abc123" Demo.foo_files).
  - decide_goal.
  - reflexivity.
  - reflexivity.
  - reflexivity.
  - reflexivity.
  - decide_goal.
  - reflexivity.
  - reflexivity.
  - reflexivity.
  - vm_compute; reflexivity.
Defined.

(** C7: for a module that the manifest records and whose directory is
    present, an install without [force] in which the user declines the
    reinstallation returns [False] and leaves the manifest file and the
    project tree, the module directory included, as they were. *)
Theorem c7_already_installed_declined env silent st m e :
  let r := install env (Some m) silent st in
  let repo := modules_repo (self st) in
  lookup_entry (checked_manifest env st) (remote_url repo) (repo_path repo) m = Some e →
  is_Some (tree st !! module_dir_of (self st) m) →
  force (self st) = false →
  confirm_force env m = false →
  result r = false ∧
  modules_json_file (final r) = modules_json_file st ∧
  tree (final r) = tree st ∧
  Forall (λ e, mutating e = false) (emitted r).
Proof.
  intros r repo Hentry Hdir Hforce Hdecline. subst r repo. rewrite install_run.
  destruct (prepare env (Some m) st) as [[p st1] t1] eqn:Hp.
  apply prepare_spec in Hp as (Hfile & _ & Hself & Hp).
  destruct p as [[m' v']|]; simpl in Hp.
  - exfalso. destruct Hp as (_ & _ & Hm & _ & _ & Hcase).
    pose proof (Hm m eq_refl) as ->.
    destruct Hself as [[Hs _]|(m' & _ & Hs & _ & Hm' & Hnone)].
    + rewrite Hs, Hforce in Hcase. destruct Hcase as (_ & _ & Habsent).
      destruct Hdir as [x Hx]. rewrite Habsent in Hx; [done|].
      unfold current_version_in. rewrite Hentry. by eexists.
    + pose proof (Hm' m eq_refl) as ->. by specialize (Hnone Hdecline).
  - destruct Hp as (Htree & Hev). unfold result, final, emitted. simpl.
    by rewrite app_nil_r.
Qed.

Lemma c7_already_installed_declined_witness :
  let st := Demo.start (Demo.obj false false None) Demo.bar_installed Demo.bar_recorded in
  let r := install (Demo.env false) (Some "bar") false st in
  lookup_entry (checked_manifest (Demo.env false) st) Demo.url1 Demo.path "bar"
    = Some {| revision := "r1" |} ∧
  is_Some (tree st !! module_dir_of (self st) "bar") ∧
  result r = false ∧
  modules_json_file (final r) = modules_json_file st ∧
  tree (final r) = tree st.
Proof.
  intros st r.
  assert (lookup_entry (checked_manifest (Demo.env false) st) Demo.url1 Demo.path "bar"
          = Some {| revision := "r1" |}) as H1 by (vm_compute; reflexivity).
  assert (is_Some (tree st !! module_dir_of (self st) "bar")) as H2 by decide_goal.
  split; [exact H1|]. split; [exact H2|].
  destruct (c7_already_installed_declined (Demo.env false) false st "bar" _
              H1 H2 eq_refl eq_refl) as (H3 & H4 & H5 & _).
  split; [exact H3|]. split; [exact H4 | exact H5].
Defined.

(** C8 (as amended): for an install with a non-empty pinned revision: if
    the revision does not exist on the remote, the install returns [False]
    without downloading, purging or touching the manifest; if it exists,
    every download of the install is at that revision, and a successful
    install records it in the manifest. *)
Theorem c8_pinned_revision env module silent st s :
  let r := install env module silent st in
  let repo := modules_repo (self st) in
  sha (self st) = Some s →
  s ≠ EmptyString →
  (sha_exists_on_branch repo s = false →
     result r = false ∧
     Forall (λ e, mutating e = false) (emitted r) ∧
     tree (final r) = tree st ∧
     modules_json_file (final r) = modules_json_file st) ∧
  (sha_exists_on_branch repo s = true →
     (∀ m v folder ok, EvInstallFiles m v folder ok ∈ emitted r → v = s) ∧
     (result r = true →
        ∃ m, (∀ m0, module = Some m0 → m = m0) ∧
             lookup_entry (modules_json_file (final r))
               (remote_url repo) (repo_path repo) m = Some {| revision := s |})).
Proof.
  intros r repo Hsha Hne.
  assert (truthy_opt (sha (self st)) = true) as Htruthy.
  { rewrite Hsha. unfold truthy_opt, truthy. apply negb_true_iff.
    by apply String.eqb_neq. }
  assert (∀ m cur, resolved_version env (self st) m cur = Some s) as Hres.
  { intros m cur. unfold resolved_version. by rewrite Htruthy, Hsha. }
  split.
  - intros Hmissing. subst r repo. rewrite install_run.
    destruct (prepare env module st) as [[p st1] t1] eqn:Hp.
    apply prepare_spec in Hp as (Hfile & _ & _ & Hp).
    destruct p as [[m' v']|]; simpl in Hp.
    + exfalso. destruct Hp as (_ & _ & _ & _ & Hexists & _).
      specialize (Hexists Htruthy). rewrite Hsha in Hexists. simpl in Hexists.
      congruence.
    + destruct Hp as (Htree & Hev). unfold result, final, emitted. simpl.
      by rewrite app_nil_r.
  - intros _. split.
    + subst r repo. rewrite install_run.
      destruct (prepare env module st) as [[p st1] t1] eqn:Hp.
      apply prepare_spec in Hp as (_ & Hev & _ & Hp).
      assert (∀ e, e ∈ t1 → materialization e = false) as Hquiet.
      { intros e Hin. rewrite Forall_forall in Hev. by destruct (Hev _ Hin). }
      destruct p as [[m' v']|]; unfold emitted; simpl.
      2:{ intros m v folder ok Hin. rewrite app_nil_r in Hin.
          by apply Hquiet in Hin. }
      destruct Hp as (_ & _ & _ & Hv & _). rewrite Hres in Hv. injection Hv as <-.
      destruct (download_and_record m' s silent st1) as [[b st2] t2] eqn:Hd.
      apply download_and_record_spec in Hd as (_ & Hd). simpl.
      intros m v folder ok [Hin|Hin]%elem_of_app; [by apply Hquiet in Hin|].
      destruct (fetch_module_files _ s m'); destruct Hd as (_ & _ & _ & _ & ->);
        [destruct silent|]; simpl in Hin; set_solver.
    + intros Htrue.
      apply install_true in Htrue as (m & v & files & Hm & Hv & _ & Hfile).
      rewrite Hres in Hv. injection Hv as <-. exists m. split; [done|].
      subst r repo. rewrite Hfile, lookup_record_install. by rewrite decide_True.
Qed.

Lemma c8_pinned_revision_witness :
  let st := Demo.start (Demo.obj false false (Some "def456")) ∅ ∅ in
  let r := install (Demo.env false) (Some "foo") false st in
  sha (self st) = Some "def456" ∧ "def456" ≠ EmptyString ∧
  sha_exists_on_branch (modules_repo (self st)) "def456" = true ∧
  result r = true ∧
  (∀ m v folder ok, EvInstallFiles m v folder ok ∈ emitted r → v = "def456") ∧
  ∃ m, (∀ m0, Some "foo" = Some m0 → m = m0) ∧
       lookup_entry (modules_json_file (final r)) Demo.url1 Demo.path m
         = Some {| revision := "def456" |}.
Proof.
  intros st r.
  assert ("def456" ≠ EmptyString) as Hne by decide_goal.
  assert (result r = true) as Htrue by (vm_compute; reflexivity).
  split; [reflexivity|]. split; [exact Hne|]. split; [reflexivity|].
  split; [exact Htrue|].
  destruct (c8_pinned_revision (Demo.env false) (Some "foo") false st "def456"
              eq_refl Hne) as [_ Hexists].
  destruct (Hexists eq_refl) as [Hat Hrec].
  split; [exact Hat | exact (Hrec Htrue)].
Defined.

(** C8, as stated, fails for an empty pinned revision: [if self.sha:] is not
    taken for it, so a revision that does not exist on the remote is not
    rejected, and the latest revision is installed in its place. *)
Lemma c8_empty_sha_not_checked :
  let st := Demo.start (Demo.obj false false (Some EmptyString)) ∅ ∅ in
  let r := install (Demo.env false) (Some "foo") false st in
  sha (self st) = Some EmptyString ∧
  sha_exists_on_branch (modules_repo (self st)) EmptyString = false ∧
  result r = true ∧
  EvInstallFiles "foo" "abc123" "./modules/nf-core/modules" true ∈ emitted r ∧
  lookup_entry (modules_json_file (final r)) Demo.url1 Demo.path "foo"
    = Some {| revision := "abc123" |}.
Proof.
  intros st r. repeat split; try (vm_compute; reflexivity). decide_goal.
Qed.

(** C9: when the install asks whether to force the reinstallation and the
    answer is yes, the [ModuleInstall] object leaves the call with [force]
    set and otherwise unchanged; every later [install] on an object in that
    state keeps it so, never asks again, and has purged the module directory
    before any download it makes. *)
Theorem c9_confirmed_force_persists env module silent st m :
  let r := install env module silent st in
  EvConfirmForce m ∈ emitted r →
  confirm_force env m = true →
  self (final r) = set_force true (self st) ∧
  ∀ env' module' silent' st',
    self st' = self (final r) →
    let r' := install env' module' silent' st' in
    self (final r') = self st' ∧
    Forall (λ e, confirm_event e = false) (emitted r') ∧
    ∀ m' v folder ok,
      EvInstallFiles m' v folder ok ∈ emitted r' →
      ∃ before after,
        emitted r' = before ++ EvInstallFiles m' v folder ok :: after ∧
        EvClearModuleDir (module_dir_of (self st') m') ∈ before.
Proof.
  intros r Hasked Hyes.
  assert (self (final r) = set_force true (self st)) as Hset.
  { subst r. rewrite install_run in *.
    destruct (prepare env module st) as [[p st1] t1] eqn:Hp.
    apply prepare_spec in Hp as (_ & _ & Hself & Hp).
    assert (EvConfirmForce m ∈ t1 ∧
            self (final (match p with
                         | None => (false, st1, t1 ++ [])
                         | Some (m0, v) =>
                             let '(b, st2, t2) := download_and_record m0 v silent st1 in
                             (b, st2, t1 ++ t2)
                         end)) = self st1) as [Hin ->].
    { destruct p as [[m0 v]|]; unfold emitted, final in *; simpl in *.
      - destruct (download_and_record m0 v silent st1) as [[b st2] t2] eqn:Hd.
        apply download_and_record_spec in Hd as (Hs2 & Hd). simpl in *.
        split; [|done].
        apply elem_of_app in Hasked as [Hin|Hin]; [done|]. exfalso.
        destruct (fetch_module_files _ v m0); destruct Hd as (_ & _ & _ & _ & ->);
          [destruct silent|]; simpl in Hin; set_solver.
      - by rewrite app_nil_r in Hasked. }
    destruct Hself as [[_ Hnone]|(m0 & _ & Hs & Hev & _)].
    - rewrite Forall_forall in Hnone. by specialize (Hnone _ Hin).
    - rewrite Forall_forall in Hev. specialize (Hev _ Hin eq_refl).
      injection Hev as ->. by rewrite Hs, Hyes. }
  split; [exact Hset|].
  intros env' module' silent' st' Hsame r'.
  assert (force (self st') = true) as Hforce by (by rewrite Hsame, Hset).
  subst r'. rewrite install_run.
  destruct (prepare env' module' st') as [[p st1] t1] eqn:Hp.
  apply prepare_spec in Hp as (_ & Hev & Hself & Hp).
  destruct Hself as [[Hs Hnone]|(m0 & Hf & _)]; [|congruence].
  assert (∀ e, e ∈ t1 → materialization e = false) as Hquiet.
  { intros e Hin. rewrite Forall_forall in Hev. by destruct (Hev _ Hin). }
  destruct p as [[m0 v0]|]; unfold emitted, final; simpl.
  2:{ rewrite app_nil_r. repeat split; try done.
      intros m' v folder ok Hin. by apply Hquiet in Hin. }
  destruct (download_and_record m0 v0 silent' st1) as [[b st2] t2] eqn:Hd.
  pose proof Hd as Hdl.
  apply download_and_record_spec in Hd as (Hs2 & Hd). simpl in *.
  destruct Hp as (_ & _ & _ & _ & _ & Hcase). rewrite Hs, Hforce in Hcase.
  destruct Hcase as (_ & Hclear & _).
  split; [congruence|]. split.
  - apply Forall_app_2; [done|].
    destruct (fetch_module_files _ v0 m0); destruct Hd as (_ & _ & _ & _ & ->);
      [destruct silent'|]; by repeat constructor.
  - intros m' v folder ok [Hin|Hin]%elem_of_app; [by apply Hquiet in Hin|].
    destruct (download_trace _ _ _ _ _ _ _ Hdl) as (l1 & l2 & ok0 & after & -> & Hafter).
    assert (EvInstallFiles m' v folder ok =
            EvInstallFiles m0 v0 (install_folder_of (self st1)) ok0) as Heq.
    { apply elem_of_cons in Hin as [Hin|Hin]; [done|].
      apply elem_of_cons in Hin as [Hin|Hin]; [done|].
      apply elem_of_cons in Hin as [Hin|Hin]; [done|].
      rewrite Forall_forall in Hafter. by specialize (Hafter _ Hin). }
    injection Heq as -> -> -> ->.
    exists (t1 ++ [EvLog Info l1; EvLog Debug l2]), after. split.
    + by rewrite <- app_assoc.
    + apply elem_of_app. by left.
Qed.

Lemma c9_confirmed_force_persists_witness :
  let st := Demo.start (Demo.obj false false None) Demo.foo_installed Demo.two_remotes in
  let r := install (Demo.env true) (Some "foo") false st in
  let r' := install (Demo.env false) (Some "foo") false (final r) in
  EvConfirmForce "foo" ∈ emitted r ∧
  confirm_force (Demo.env true) "foo" = true ∧
  force (self st) = false ∧
  self (final r) = set_force true (self st) ∧
  self (final r') = self (final r) ∧
  Forall (λ e, confirm_event e = false) (emitted r').
Proof.
  intros st r r'.
  assert (EvConfirmForce "foo" ∈ emitted r) as H1 by decide_goal.
  split; [exact H1|]. split; [reflexivity|]. split; [reflexivity|].
  destruct (c9_confirmed_force_persists (Demo.env true) (Some "foo") false st "foo"
              H1 eq_refl) as [H2 H3].
  split; [exact H2|].
  destruct (H3 (Demo.env false) (Some "foo") false (final r) eq_refl) as (H4 & H5 & _).
  split; [exact H4 | exact H5].
Defined.

(** C10: for the empty module name the catalog is never consulted: the
    install does not query it, and the name check answers by the branch
    check alone, rejecting the name with the not-in-remote warning when the
    branch check fails and passing it on when the branch check succeeds. *)
Theorem c10_empty_name_skips_catalog env silent st :
  let r := install env (Some EmptyString) silent st in
  let repo := modules_repo (self st) in
  (EvAvailModules ∉ emitted r) ∧
  select_module env (Some EmptyString) st =
    (if module_exists repo EmptyString then Some EmptyString else None, st,
     EvModuleExists EmptyString ::
     (if module_exists repo EmptyString then []
      else [EvLog Warning (MsgNotInRemote EmptyString (remote_url repo) (branch repo))])) ∧
  (module_exists repo EmptyString = false → result r = false).
Proof.
  intros r repo. subst r repo. split; [|split].
  - rewrite install_run.
    destruct (prepare_trace env (Some EmptyString) st) as (tb & tc & Htrace & Htb & Htc).
    assert (EvAvailModules ∉ emitted (prepare env (Some EmptyString) st)) as Hprep.
    { rewrite Htrace. intros [Hin|[Hin|Hin]%elem_of_app]%elem_of_app.
      - destruct (check_request env st) as [[ok sa] ta] eqn:Ha.
        apply check_request_spec in Ha as (_ & _ & _ & Hev & _).
        rewrite Forall_forall in Hev. by specialize (Hev _ Hin).
      - destruct Htb as [-> | ->]; [by apply elem_of_nil in Hin|].
        revert Hin. unfold select_module. run.
        destruct (module_exists _ EmptyString); simpl; set_solver.
      - rewrite Forall_forall in Htc. by specialize (Htc _ Hin). }
    unfold emitted in *.
    destruct (prepare env (Some EmptyString) st) as [[[[m v]|] st1] t1]; simpl in *.
    + destruct (download_and_record m v silent st1) as [[b st2] t2] eqn:Hd.
      apply download_and_record_spec in Hd as (_ & Hd). simpl.
      intros [Hin|Hin]%elem_of_app; [done|].
      destruct (fetch_module_files _ v m); destruct Hd as (_ & _ & _ & _ & ->);
        [destruct silent|]; simpl in Hin; set_solver.
    + by rewrite app_nil_r.
  - unfold select_module. run. by destruct (module_exists _ EmptyString).
  - intros Hmissing. rewrite install_run.
    destruct (prepare env (Some EmptyString) st) as [[p st1] t1] eqn:Hp.
    apply prepare_spec in Hp as (_ & _ & _ & Hp).
    destruct p as [[m v]|]; [|done]. exfalso. simpl in Hp.
    destruct Hp as (Hex & _ & Hm & _). pose proof (Hm EmptyString eq_refl) as ->.
    congruence.
Qed.

Lemma c10_empty_name_skips_catalog_witness :
  let st := Demo.start Demo.strict_obj ∅ ∅ in
  let r := install (Demo.env false) (Some EmptyString) true st in
  module_exists (modules_repo (self st)) EmptyString = false ∧
  (EvAvailModules ∉ emitted r) ∧
  result r = false.
Proof.
  intros st r. split; [reflexivity|].
  destruct (c10_empty_name_skips_catalog (Demo.env false) true st) as (H1 & _ & H2).
  split; [exact H1 | exact (H2 eq_refl)].
Defined.

(** ** Further properties of [install] *)

Lemma State_eq (s1 s2 : State) :
  self s1 = self s2 → tree s1 = tree s2 →
  modules_json_file s1 = modules_json_file s2 →
  modules_json s1 = modules_json s2 → s1 = s2.
Proof. destruct s1, s2. simpl. by intros -> -> -> ->. Qed.

Lemma check_request_true_inv env st st1 t1 :
  check_request env st = (true, st1, t1) →
  repo_type (self st) ≠ "modules" ∧
  has_valid_directory env (self st) (tree st) = true ∧
  prompt (self st) && bool_decide (is_Some (sha (self st))) = false.
Proof.
  unfold check_request. run.
  destruct (String.eqb (repo_type (self st)) "modules") eqn:Hty; simpl; [done|].
  apply String.eqb_neq in Hty.
  destruct (has_valid_directory env (self st) (tree st)); simpl; [|done].
  destruct (prompt (self st) && bool_decide (is_Some (sha (self st)))); simpl;
    [done|].
  by intros _.
Qed.

Lemma prepare_some_request env module st x st1 t1 :
  prepare env module st = (Some x, st1, t1) →
  repo_type (self st) ≠ "modules" ∧
  has_valid_directory env (self st) (tree st) = true ∧
  prompt (self st) && bool_decide (is_Some (sha (self st))) = false.
Proof.
  unfold prepare, bind.
  destruct (check_request env st) as [[ok sa] ta] eqn:Ha.
  destruct ok; simpl; [|done]. intros _.
  by eapply check_request_true_inv.
Qed.

(** X1: in a clone of nf-core/modules, [install] returns [False] at once:
    it logs the error and does nothing else, whatever the request. *)
Theorem x1_clone_of_modules_refused env module silent st :
  repo_type (self st) = "modules" →
  install env module silent st = (false, st, [EvLog Error MsgCloneOfModules]).
Proof.
  intros Hty. unfold install, prepare, check_request. run.
  by rewrite Hty.
Qed.

Lemma x1_clone_of_modules_refused_witness :
  let st := Demo.start Scenario.clone_obj Demo.foo_installed Demo.two_remotes in
  repo_type (self st) = "modules" ∧
  install (Demo.env true) (Some "foo") false st
    = (false, st, [EvLog Error MsgCloneOfModules]).
Proof.
  intros st. split; [reflexivity|].
  exact (x1_clone_of_modules_refused (Demo.env true) (Some "foo") false st eq_refl).
Defined.

(** X2: when [has_valid_directory] answers no, [install] returns [False]
    having done nothing but that check: the manifest is not even loaded. *)
Theorem x2_invalid_directory_refused env module silent st :
  repo_type (self st) ≠ "modules" →
  has_valid_directory env (self st) (tree st) = false →
  install env module silent st = (false, st, [EvValidDirectory]).
Proof.
  intros Hty%String.eqb_neq Hvalid. unfold install, prepare, check_request. run.
  by rewrite Hty, Hvalid.
Qed.

Lemma x2_invalid_directory_refused_witness :
  let st := Demo.start (Demo.obj true false None) Demo.foo_installed Demo.two_remotes in
  repo_type (self st) ≠ "modules" ∧
  install (Scenario.env false) (Some "foo") false st = (false, st, [EvValidDirectory]).
Proof.
  intros st.
  assert (repo_type (self st) ≠ "modules") as H1 by decide_goal.
  split; [exact H1|].
  exact (x2_invalid_directory_refused (Scenario.env false) (Some "foo") false st
           H1 eq_refl).
Defined.

(** X3: for a named module, [install] returns [True] exactly when: the
    project is not a clone of nf-core/modules and is a valid directory; sha
    and prompt are not both given; a non-empty sha exists on the remote; the
    name, if non-empty, is in the catalog, and exists on the branch; if the
    module is recorded and present and [force] is unset, the user confirms;
    the version is resolved; and the download of that version succeeds. *)
Theorem x3_success_condition env silent st m :
  let obj := self st in
  let repo := modules_repo obj in
  let cur := current_version_in (checked_manifest env st) obj m in
  result (install env (Some m) silent st) = true ↔
  repo_type obj ≠ "modules" ∧
  has_valid_directory env obj (tree st) = true ∧
  prompt obj && bool_decide (is_Some (sha obj)) = false ∧
  (truthy_opt (sha obj) = true →
   sha_exists_on_branch repo (default EmptyString (sha obj)) = true) ∧
  (truthy m = true → m ∈ get_avail_modules repo) ∧
  module_exists repo m = true ∧
  (force obj = false → is_Some cur → is_Some (tree st !! module_dir_of obj m) →
   confirm_force env m = true) ∧
  ∃ v files,
    resolved_version env obj m cur = Some v ∧
    fetch_module_files repo v m = Fetched files.
Proof.
  intros obj repo cur. subst obj repo cur. rewrite install_run. split.
  - destruct (prepare env (Some m) st) as [[p st1] t1] eqn:Hp.
    destruct (prepare_self _ _ _ _ _ _ Hp) as [b0 Hb0].
    destruct p as [[m' v]|]; unfold result; simpl; [|done].
    destruct (prepare_some_request _ _ _ _ _ _ Hp) as (Hty & Hvalid & Hexcl).
    apply prepare_spec in Hp as (_ & _ & Hself & Hp). simpl in Hp.
    destruct Hp as (Hex & Hav & Hm & Hres & Hsha & Hcase).
    pose proof (Hm m eq_refl) as ->.
    destruct (download_and_record m v silent st1) as [[b st2] t2] eqn:Hd.
    apply download_and_record_spec in Hd as (_ & Hd). simpl. intros ->.
    rewrite Hb0 in Hd. simpl in Hd.
    destruct (fetch_module_files _ v m) as [files|partial] eqn:Hfetch;
      [|by destruct Hd].
    repeat split; try done; [|by eauto].
    intros Hforce Hcur Hdir.
    destruct Hself as [[Hs _]|(m' & _ & Hs & _ & Hm' & Hnone)].
    + rewrite Hs, Hforce in Hcase. destruct Hcase as (_ & _ & Habsent).
      destruct Hdir as [x Hx]. by rewrite Habsent in Hx.
    + pose proof (Hm' m eq_refl) as ->.
      destruct (confirm_force env m); [done|]. by specialize (Hnone eq_refl).
  - intros (Hty & Hvalid & Hexcl & Hsha & Hav & Hex & Hconfirm & v & files & Hres & Hfetch).
    destruct (prepare_reaches env m st Hty Hvalid Hexcl Hsha Hav Hex Hconfirm
                (mk_is_Some _ _ Hres)) as [[m' v'] Hreach].
    unfold result in Hreach.
    destruct (prepare env (Some m) st) as [[p st1] t1] eqn:Hp.
    simpl in Hreach. subst p.
    destruct (prepare_self _ _ _ _ _ _ Hp) as [b0 Hb0].
    apply prepare_spec in Hp as (_ & _ & _ & Hp). simpl in Hp.
    destruct Hp as (_ & _ & Hm & Hv & _).
    pose proof (Hm m eq_refl) as ->. rewrite Hres in Hv. injection Hv as <-.
    destruct (download_and_record m v silent st1) as [[b st2] t2] eqn:Hd.
    apply download_and_record_spec in Hd as (_ & Hd).
    rewrite Hb0 in Hd. simpl in Hd. rewrite Hfetch in Hd.
    unfold result. simpl. by destruct Hd.
Qed.

Lemma select_module_none env st :
  select_module env None st =
  let '(c, s, t) :=
    select_module env (Some (ask_module env (get_avail_modules (modules_repo (self st))))) st in
  (c, s, EvAvailModules :: EvAskModule :: t).
Proof. unfold select_module. run. by split_ifs. Qed.

(** X4: an install without a module name is the install of the name the
    user picks from the catalog: same result, same final state. *)
Theorem x4_prompted_name env silent st :
  let m := ask_module env (get_avail_modules (modules_repo (self st))) in
  result (install env None silent st) = result (install env (Some m) silent st) ∧
  final (install env None silent st) = final (install env (Some m) silent st).
Proof.
  intros m. subst m. unfold install, prepare, bind.
  destruct (check_request env st) as [[ok sa] ta] eqn:Ha.
  apply check_request_spec in Ha as (Hsa & _).
  destruct ok; simpl; [|done].
  rewrite select_module_none, Hsa.
  destruct (select_module env (Some _) sa) as [[[m|] sb] tb]; simpl; [|done].
  destruct (check_installed env m sb) as [[[cur|] sc] tc]; simpl; [|done].
  destruct (choose_version env m cur sc) as [[[v|] sd] td]; simpl; [|done].
  destruct (remove_installed m sd) as [[[] se] te]; simpl.
  by destruct (download_and_record m v silent se) as [[b sf] tf].
Qed.

(** X5: a module that does not exist on the branch is refused, in the
    catalog or not, with [force] or not: [install] returns [False] and
    nothing is purged, downloaded or recorded. *)
Theorem x5_not_on_branch env silent st m :
  let r := install env (Some m) silent st in
  module_exists (modules_repo (self st)) m = false →
  result r = false ∧
  Forall (λ e, mutating e = false) (emitted r) ∧
  tree (final r) = tree st ∧
  modules_json_file (final r) = modules_json_file st.
Proof.
  intros r Hmissing. subst r. rewrite install_run.
  destruct (prepare env (Some m) st) as [[p st1] t1] eqn:Hp.
  apply prepare_spec in Hp as (Hfile & _ & _ & Hp).
  destruct p as [[m' v']|]; simpl in Hp.
  - exfalso. destruct Hp as (Hex & _ & Hm & _).
    pose proof (Hm m eq_refl) as ->. congruence.
  - destruct Hp as (Htree & Hev). unfold result, final, emitted. simpl.
    by rewrite app_nil_r.
Qed.

Lemma x5_not_on_branch_witness :
  let st := Demo.start (Scenario.obj true false None) Demo.bar_installed Demo.bar_recorded in
  let r := install (Demo.env true) (Some "bar") false st in
  "bar" ∈ get_avail_modules (modules_repo (self st)) ∧
  module_exists (modules_repo (self st)) "bar" = false ∧
  result r = false ∧ tree (final r) = tree st.
Proof.
  intros st r. split; [decide_goal|]. split; [reflexivity|].
  destruct (x5_not_on_branch (Demo.env true) false st "bar" eq_refl)
    as (H1 & _ & H2 & _).
  split; [exact H1 | exact H2].
Defined.

(** X6: in interactive mode, when the version dialogue is interrupted
    ([SystemError]), [install] returns [False] and nothing is purged,
    downloaded or recorded, even with [force]: the purge comes after the
    dialogue. *)
Theorem x6_version_dialogue_interrupted env silent st m :
  let r := install env (Some m) silent st in
  prompt (self st) = true →
  truthy_opt (sha (self st)) = false →
  prompt_module_version_sha env m
    (current_version_in (checked_manifest env st) (self st) m) = None →
  result r = false ∧
  Forall (λ e, mutating e = false) (emitted r) ∧
  tree (final r) = tree st ∧
  modules_json_file (final r) = modules_json_file st.
Proof.
  intros r Hprompt Hsha Hnone. subst r. rewrite install_run.
  destruct (prepare env (Some m) st) as [[p st1] t1] eqn:Hp.
  apply prepare_spec in Hp as (Hfile & _ & _ & Hp).
  destruct p as [[m' v']|]; simpl in Hp.
  - exfalso. destruct Hp as (_ & _ & Hm & Hres & _).
    pose proof (Hm m eq_refl) as ->.
    unfold resolved_version in Hres. rewrite Hsha, Hprompt in Hres. congruence.
  - destruct Hp as (Htree & Hev). unfold result, final, emitted. simpl.
    by rewrite app_nil_r.
Qed.

Lemma x6_version_dialogue_interrupted_witness :
  let st := Demo.start (Demo.obj true true None) Demo.foo_installed Demo.two_remotes in
  let r := install (Scenario.env true) (Some "foo") false st in
  force (self st) = true ∧
  result r = false ∧ tree (final r) = tree st ∧
  Forall (λ e, mutating e = false) (emitted r).
Proof.
  intros st r. split; [reflexivity|].
  destruct (x6_version_dialogue_interrupted (Scenario.env true) false st "foo"
              eq_refl eq_refl eq_refl) as (H1 & H2 & H3 & _).
  split; [exact H1|]. split; [exact H3 | exact H2].
Defined.

(** X7: an install that makes no download has returned [False] and has
    changed nothing: no directory cleared, no manifest entry removed, no
    file written, with [force] or not. *)
Theorem x7_no_download_no_change env module silent st :
  let r := install env module silent st in
  Forall (λ e, materialization e = false) (emitted r) →
  result r = false ∧
  Forall (λ e, mutating e = false) (emitted r) ∧
  tree (final r) = tree st ∧
  modules_json_file (final r) = modules_json_file st.
Proof.
  intros r. subst r. rewrite install_run.
  destruct (prepare env module st) as [[p st1] t1] eqn:Hp.
  apply prepare_spec in Hp as (Hfile & _ & _ & Hp).
  destruct p as [[m v]|]; unfold result, final, emitted; simpl.
  - destruct (download_and_record m v silent st1) as [[b st2] t2] eqn:Hd.
    apply download_trace in Hd as (l1 & l2 & ok & after & -> & _). simpl.
    intros Hall. exfalso. apply Forall_app in Hall as [_ Hall].
    by inversion Hall as [|? ? _ Hall']; inversion Hall' as [|? ? _ Hall''];
      inversion Hall'' as [|? ? Hbad _].
  - destruct Hp as (Htree & Hev). by rewrite app_nil_r.
Qed.

Lemma x7_no_download_no_change_witness :
  let st := Demo.start (Demo.obj true false (Some "nope")) Demo.foo_installed Demo.two_remotes in
  let r := install (Demo.env true) (Some "foo") false st in
  Forall (λ e, materialization e = false) (emitted r) ∧
  result r = false ∧ tree (final r) = tree st.
Proof.
  intros st r.
  assert (Forall (λ e, materialization e = false) (emitted r)) as H1
    by (vm_compute; repeat constructor).
  split; [exact H1|].
  destruct (x7_no_download_no_change (Demo.env true) (Some "foo") false st H1)
    as (H2 & _ & H3 & _).
  split; [exact H2 | exact H3].
Defined.

(** X8: when an install made with [force] set succeeds, the module
    directory holds exactly the files that were fetched: whatever it held
    before is gone. *)
Theorem x8_forced_install_replaces_files env module silent st :
  let r := install env module silent st in
  force (self (final r)) = true →
  result r = true →
  ∃ m v files,
    (∀ m0, module = Some m0 → m = m0) ∧
    fetch_module_files (modules_repo (self st)) v m = Fetched files ∧
    tree (final r) !! module_dir_of (self st) m = Some files.
Proof.
  intros r. subst r. rewrite install_run.
  destruct (prepare env module st) as [[p st1] t1] eqn:Hp.
  destruct (prepare_self _ _ _ _ _ _ Hp) as [b0 Hb0].
  apply prepare_spec in Hp as (_ & _ & _ & Hp).
  destruct p as [[m v]|]; unfold result, final; simpl; [|done].
  destruct (download_and_record m v silent st1) as [[b st2] t2] eqn:Hd.
  apply download_and_record_spec in Hd as (Hs2 & Hd). simpl.
  intros Hforce ->. rewrite Hs2 in Hforce.
  destruct Hp as (_ & _ & Hm & _ & _ & Hcase). rewrite Hforce in Hcase.
  destruct Hcase as (Htree & _).
  rewrite Hb0 in Hd. simpl in Hd.
  change (module_dir_of (set_force b0 (self st)) m)
    with (module_dir_of (self st) m) in Hd.
  destruct (fetch_module_files _ v m) as [files|partial] eqn:Hfetch;
    [|by destruct Hd].
  destruct Hd as (_ & Ht2 & _). exists m, v, files.
  split; [done|]. split; [done|].
  rewrite Ht2, Htree. apply write_files_fresh, lookup_delete_eq.
Qed.

Lemma x8_forced_install_replaces_files_witness :
  let st := Demo.start (Demo.obj true false None) Demo.foo_installed Demo.two_remotes in
  let r := install (Demo.env false) (Some "foo") false st in
  tree st !! "./modules/nf-core/modules/foo" = Some {[ "main.nf" := [x62%byte] ]} ∧
  force (self (final r)) = true ∧ result r = true ∧
  tree (final r) !! "./modules/nf-core/modules/foo" = Some Demo.foo_files.
Proof.
  intros st r.
  assert (force (self (final r)) = true) as H1 by (vm_compute; reflexivity).
  assert (result r = true) as H2 by (vm_compute; reflexivity).
  split; [vm_compute; reflexivity|]. split; [exact H1|]. split; [exact H2|].
  destruct (x8_forced_install_replaces_files (Demo.env false) (Some "foo") false st
              H1 H2) as (m & v & files & Hm & Hfetch & Htree).
  rewrite (Hm "foo" eq_refl) in Htree, Hfetch.
  vm_compute in Hfetch. injection Hfetch as <-. exact Htree.
Defined.

(** X9: when the download of an install made with [force] set fails, the
    earlier content of the module directory is lost all the same: the
    directory holds only what the broken transfer wrote. *)
Theorem x9_forced_install_failed_download env module silent st m v folder :
  let r := install env module silent st in
  force (self (final r)) = true →
  EvInstallFiles m v folder false ∈ emitted r →
  ∃ partial,
    fetch_module_files (modules_repo (self st)) v m = FetchFailed partial ∧
    tree (final r) !! module_dir_of (self st) m = Some partial.
Proof.
  intros r. subst r. rewrite install_run.
  destruct (prepare env module st) as [[p st1] t1] eqn:Hp.
  destruct (prepare_self _ _ _ _ _ _ Hp) as [b0 Hb0].
  apply prepare_spec in Hp as (_ & Hev & _ & Hp).
  assert (∀ e, e ∈ t1 → materialization e = false) as Hquiet.
  { intros e Hin. rewrite Forall_forall in Hev. by destruct (Hev _ Hin). }
  destruct p as [[m0 v0]|]; unfold emitted, final; simpl.
  2:{ intros _ Hin. rewrite app_nil_r in Hin. by apply Hquiet in Hin. }
  destruct (download_and_record m0 v0 silent st1) as [[b st2] t2] eqn:Hd.
  pose proof Hd as Hdl.
  apply download_and_record_spec in Hd as (Hs2 & Hd). simpl.
  intros Hforce [Hin|Hin]%elem_of_app; [by apply Hquiet in Hin|].
  rewrite Hs2 in Hforce.
  destruct Hp as (_ & _ & _ & _ & _ & Hcase). rewrite Hforce in Hcase.
  destruct Hcase as (Htree & _).
  destruct (download_trace _ _ _ _ _ _ _ Hdl) as (l1 & l2 & ok0 & after & -> & Hafter).
  assert (EvInstallFiles m v folder false =
          EvInstallFiles m0 v0 (install_folder_of (self st1)) ok0) as Heq.
  { apply elem_of_cons in Hin as [Hin|Hin]; [done|].
    apply elem_of_cons in Hin as [Hin|Hin]; [done|].
    apply elem_of_cons in Hin as [Hin|Hin]; [done|].
    rewrite Forall_forall in Hafter. by specialize (Hafter _ Hin). }
  injection Heq as -> -> -> <-.
  rewrite Hb0 in Hd. simpl in Hd.
  change (module_dir_of (set_force b0 (self st)) m0)
    with (module_dir_of (self st) m0) in Hd.
  destruct (fetch_module_files _ v0 m0) as [files|partial] eqn:Hfetch.
  { by destruct Hd as (_ & _ & _ & _ & [= _ _ ?]). }
  destruct Hd as (_ & Ht2 & _). exists partial. split; [done|].
  rewrite Ht2, Htree. apply write_files_fresh, lookup_delete_eq.
Qed.

Lemma x9_forced_install_failed_download_witness :
  let st := Demo.start (Scenario.broken_obj true) Demo.foo_installed Demo.two_remotes in
  let r := install (Demo.env false) (Some "foo") false st in
  tree st !! "./modules/nf-core/modules/foo" = Some {[ "main.nf" := [x62%byte] ]} ∧
  force (self (final r)) = true ∧
  EvInstallFiles "foo" "abc123" "./modules/nf-core/modules" false ∈ emitted r ∧
  tree (final r) !! "./modules/nf-core/modules/foo" = Some {[ "meta.yml" := [x63%byte] ]}.
Proof.
  intros st r.
  assert (force (self (final r)) = true) as H1 by (vm_compute; reflexivity).
  assert (EvInstallFiles "foo" "abc123" "./modules/nf-core/modules" false ∈ emitted r)
    as H2 by decide_goal.
  split; [vm_compute; reflexivity|]. split; [exact H1|]. split; [exact H2|].
  destruct (x9_forced_install_failed_download (Demo.env false) (Some "foo") false st
              "foo" "abc123" "./modules/nf-core/modules" H1 H2) as (partial & Hfetch & Htree).
  vm_compute in Hfetch. injection Hfetch as <-. exact Htree.
Defined.

(** ** The traces of the purge and of the version choice *)

Lemma removal_trace_app module path us1 us2 :
  removal_trace module path (us1 ++ us2) =
  removal_trace module path us1 ++ removal_trace module path us2.
Proof. apply bind_app. Qed.

Lemma scan_names_trace module path names url dir st :
  emitted (scan_names names url dir module path st) =
  removal_trace module path (if hit module path names dir then [url] else []).
Proof.
  induction names as [|name rest IH]; [done|].
  cbn [scan_names hit existsb].
  destruct (String.eqb name module && String.eqb dir path); [done | apply IH].
Qed.

Lemma scan_dirs_trace module path dirs url : ∀ st,
  emitted (scan_dirs dirs url module path st) =
  removal_trace module path (dir_hits module path dirs url).
Proof.
  induction dirs as [|[dir dir_modules] rest IH]; intros st; [done|].
  cbn [scan_dirs]. unfold bind.
  pose proof (scan_names_trace module path (map_to_list dir_modules).*1 url dir st) as H1.
  destruct (scan_names _ url dir module path st) as [[[] st1] t1].
  pose proof (IH st1) as H2.
  destruct (scan_dirs rest url module path st1) as [[[] st2] t2].
  unfold emitted in *. simpl in *. subst.
  symmetry. apply removal_trace_app.
Qed.

Lemma scan_repos_trace module path repos : ∀ st,
  emitted (scan_repos repos module path st) =
  removal_trace module path (repo_hits module path repos).
Proof.
  induction repos as [|[url repo_content] rest IH]; intros st; [done|].
  cbn [scan_repos]. unfold bind.
  pose proof (scan_dirs_trace module path (map_to_list repo_content) url st) as H1.
  destruct (scan_dirs _ url module path st) as [[[] st1] t1].
  pose proof (IH st1) as H2.
  destruct (scan_repos rest module path st1) as [[[] st2] t2].
  unfold emitted in *. simpl in *. subst.
  symmetry. apply removal_trace_app.
Qed.

Lemma hit_true module path names dir :
  hit module path names dir = true → module ∈ names ∧ dir = path.
Proof.
  unfold hit. intros (name & Hin & Heq)%existsb_exists.
  apply andb_true_iff in Heq as [->%String.eqb_eq ->%String.eqb_eq].
  split; [by apply list_elem_of_In | done].
Qed.

Lemma elem_of_dir_hits module path (rc : gmap string (gmap string InstalledModule))
    url u :
  u ∈ dir_hits module path (map_to_list rc) url →
  u = url ∧ ∃ dm, rc !! path = Some dm ∧ is_Some (dm !! module).
Proof.
  unfold dir_hits. intros ([d dm] & Hin & Hd)%list_elem_of_bind.
  destruct (hit module path (map_to_list dm).*1 d) eqn:Hhit;
    [|by apply elem_of_nil in Hin].
  apply list_elem_of_singleton in Hin as ->.
  apply hit_true in Hhit as [Hmod ->].
  apply elem_of_map_to_list in Hd. split; [done|]. exists dm. split; [done|].
  apply list_elem_of_fmap in Hmod as ([n e] & -> & He).
  apply elem_of_map_to_list in He. by eexists.
Qed.

Lemma repo_hits_sound module path
    (m : gmap string (gmap string (gmap string InstalledModule))) u :
  u ∈ repo_hits module path (map_to_list m) →
  is_Some (lookup_entry m u path module).
Proof.
  unfold repo_hits. intros ([url rc] & Hin & Hrc)%list_elem_of_bind.
  apply elem_of_dir_hits in Hin as (-> & dm & Hdm & Hsome).
  apply elem_of_map_to_list in Hrc. unfold lookup_entry. by rewrite Hrc, Hdm.
Qed.

Lemma NoDup_repo_hits module path
    (m : gmap string (gmap string (gmap string InstalledModule))) :
  NoDup (repo_hits module path (map_to_list m)).
Proof.
  unfold repo_hits. apply NoDup_bind; [| |apply NoDup_map_to_list].
  - intros [u1 rc1] [u2 rc2] u H1 H2 [-> _]%elem_of_dir_hits [-> _]%elem_of_dir_hits.
    apply elem_of_map_to_list in H1, H2. congruence.
  - intros [url rc] _. unfold dir_hits.
    apply NoDup_bind; [| |apply NoDup_map_to_list].
    + intros [d1 dm1] [d2 dm2] u H1 H2 Hx Hy.
      destruct (hit module path (map_to_list dm1).*1 d1) eqn:Hh1;
        [|by apply elem_of_nil in Hx].
      destruct (hit module path (map_to_list dm2).*1 d2) eqn:Hh2;
        [|by apply elem_of_nil in Hy].
      apply hit_true in Hh1 as [_ ->]. apply hit_true in Hh2 as [_ ->].
      apply elem_of_map_to_list in H1, H2. congruence.
    + intros [d dm] _. destruct (hit module path (map_to_list dm).*1 d);
        [apply NoDup_singleton | apply NoDup_nil_2].
Qed.

Lemma remove_installed_trace module st :
  emitted (remove_installed module st) =
  if force (self st) then
    [EvLog Info (MsgRemoving (repo_path (modules_repo (self st))) module);
     EvClearModuleDir (module_dir_of (self st) module)] ++
    removal_trace module (repo_path (modules_repo (self st)))
      (repo_hits module (repo_path (modules_repo (self st)))
         (map_to_list (modules_json st)))
  else [].
Proof.
  unfold remove_installed. run.
  destruct (force (self st)); simpl; [|done].
  set (path := repo_path (modules_repo (self st))).
  set (st0 := with_tree _ st).
  pose proof (scan_repos_trace module path (map_to_list (modules_json st)) st0) as Htr.
  destruct (scan_repos _ module path st0) as [[[] st2] t2].
  unfold emitted in Htr. simpl in *. by subst.
Qed.

Lemma choose_version_trace env module cur st :
  emitted (choose_version env module cur st) = version_trace env (self st) module cur.
Proof.
  unfold choose_version, version_trace. run.
  destruct (truthy_opt (sha (self st))); simpl; [done|].
  destruct (prompt (self st)); simpl; [|done].
  by destruct (prompt_module_version_sha env module cur).
Qed.

(** The trace of [prepare], block by block. *)
Lemma prepare_stages env module st p st1 t1 :
  prepare env module st = (p, st1, t1) →
  let path := repo_path (modules_repo (self st)) in
  ∃ ta tb tc td te,
    t1 = ta ++ tb ++ tc ++ td ++ te ∧
    Forall (λ e, request_event e = true) ta ∧
    Forall (λ e, select_event e = true) tb ∧
    Forall (λ e, installed_event e = true) tc ∧
    (td = [] ∨ ∃ m cur, td = version_trace env (self st) m cur) ∧
    te = match p with
         | Some (m, v) =>
             if force (self st1) then
               [EvLog Info (MsgRemoving path m);
                EvClearModuleDir (module_dir_of (self st) m)] ++
               removal_trace m path
                 (repo_hits m path (map_to_list (checked_manifest env st)))
             else []
         | None => []
         end.
Proof.
  intros Hrun path. subst path. revert Hrun. unfold prepare, bind.
  destruct (check_request env st) as [[ok sa] ta] eqn:Ha.
  apply check_request_spec in Ha as (Hsa & _ & _ & Hea & Hoka).
  destruct ok; simpl.
  2:{ intros [= <- <- <-]. exists ta, [], [], [], [].
      rewrite !app_nil_r. repeat split; auto. }
  destruct (Hoka eq_refl) as [Hja _].
  destruct (select_module env module sa) as [[chosen sb] tb] eqn:Hb.
  apply select_module_spec in Hb as (-> & Heb & _).
  destruct chosen as [m|]; simpl.
  2:{ intros [= <- <- <-]. exists ta, tb, [], [], [].
      rewrite !app_nil_r. repeat split; auto. }
  destruct (check_installed env m sa) as [[r sc] tc] eqn:Hc.
  apply check_installed_spec in Hc as (_ & _ & Hjc & Hec & Hcase).
  assert (∃ b, self sc = set_force b (self st)) as [b Hsc].
  { destruct (installed_here sa m && negb (force (self sa)));
      destruct Hcase as (-> & _); rewrite Hsa; [by eexists|].
    exists (force (self st)). by destruct (self st). }
  destruct r as [cur|]; simpl.
  2:{ intros [= <- <- <-]. exists ta, tb, tc, [], [].
      rewrite !app_nil_r. repeat split; auto. }
  pose proof (choose_version_trace env m cur sc) as Htd.
  destruct (choose_version env m cur sc) as [[rv sd] td] eqn:Hd.
  apply choose_version_spec in Hd as (-> & _ & _).
  unfold emitted in Htd. simpl in Htd. rewrite Hsc in Htd.
  change (version_trace env (set_force b (self st)) m cur)
    with (version_trace env (self st) m cur) in Htd.
  destruct rv as [v|]; simpl.
  2:{ intros [= <- <- <-]. exists ta, tb, tc, td, [].
      rewrite !app_nil_r. repeat split; eauto. }
  pose proof (remove_installed_trace m sc) as Hte.
  destruct (remove_installed m sc) as [[[] se] te] eqn:He.
  apply remove_installed_spec in He as (Hse & _).
  unfold emitted in Hte. simpl in Hte.
  intros [= <- <- <-]. exists ta, tb, tc, td, te.
  rewrite !app_nil_r. repeat split; eauto.
  rewrite Hte, Hse, Hjc, Hja, Hsc. reflexivity.
Qed.

Lemma remove_calls_app t1 t2 :
  remove_calls (t1 ++ t2) = remove_calls t1 ++ remove_calls t2.
Proof. apply omap_app. Qed.

Lemma remove_calls_none t :
  Forall (λ e, purge_call e = false) t → remove_calls t = [].
Proof.
  induction 1 as [|e t He _ IH]; [done|].
  unfold remove_calls in *. cbn [omap list_omap]. rewrite IH. by destruct e.
Qed.

Lemma remove_calls_removal_trace module path urls :
  remove_calls (removal_trace module path urls) = (λ u, (module, u, path)) <$> urls.
Proof.
  induction urls as [|u urls IH]; [done|].
  change (removal_trace module path (u :: urls))
    with ([EvLog Info (MsgRemovingEntry path module u); EvRemoveEntry module u path]
          ++ removal_trace module path urls).
  rewrite remove_calls_app, IH. reflexivity.
Qed.

Lemma version_trace_no_purge env obj m cur :
  Forall (λ e, purge_call e = false) (version_trace env obj m cur).
Proof.
  unfold version_trace.
  destruct (truthy_opt (sha obj)); [constructor|].
  destruct (prompt obj); [|by repeat constructor].
  destruct (prompt_module_version_sha env m cur); by repeat constructor.
Qed.

Lemma download_no_purge module version silent st b st1 t1 :
  download_and_record module version silent st = (b, st1, t1) →
  Forall (λ e, purge_call e = false ∧ version_query e = false) t1.
Proof.
  intros Hd. apply download_and_record_spec in Hd as (_ & Hd).
  destruct (fetch_module_files _ version module);
    destruct Hd as (_ & _ & _ & _ & ->); [destruct silent|];
    by repeat constructor.
Qed.

(** X10: the manifest file after a successful install that leaves [force]
    unset is the manifest file as it was before the call with one entry
    set: the installed module, at the version resolved at lines 108-122.
    Line 153 reloads the file before line 154 records the entry, and
    without [force] nothing is removed, so every other entry is kept. *)
Theorem x10_unforced_success_sets_one_entry env module silent st :
  let r := install env module silent st in
  let repo := modules_repo (self st) in
  result r = true →
  force (self (final r)) = false →
  ∃ m v,
    (∀ m0, module = Some m0 → m = m0) ∧
    resolved_version env (self st) m
      (current_version_in (checked_manifest env st) (self st) m) = Some v ∧
    ∀ url d n,
      lookup_entry (modules_json_file (final r)) url d n =
      if decide (url = remote_url repo ∧ d = repo_path repo ∧ n = m)
      then Some {| revision := v |}
      else lookup_entry (modules_json_file st) url d n.
Proof.
  intros r repo Htrue _.
  apply install_true in Htrue as (m & v & files & Hm & Hres & _ & Hfile).
  exists m, v. split; [done|]. split; [done|].
  intros url d n. subst r repo. rewrite Hfile. apply lookup_record_install.
Qed.

Lemma x10_unforced_success_sets_one_entry_witness :
  let st := Demo.start (Demo.obj false false None) ∅ Demo.two_remotes in
  let r := install (Demo.env false) (Some "foo") false st in
  result r = true ∧ force (self (final r)) = false ∧
  lookup_entry (modules_json_file (final r)) Demo.url1 Demo.path "foo"
    = Some {| revision := "abc123" |} ∧
  lookup_entry (modules_json_file (final r)) Demo.url2 Demo.path "foo"
    = lookup_entry (modules_json_file st) Demo.url2 Demo.path "foo".
Proof.
  intros st r.
  assert (result r = true) as H1 by (vm_compute; reflexivity).
  assert (force (self (final r)) = false) as H2 by (vm_compute; reflexivity).
  split; [exact H1|]. split; [exact H2|].
  destruct (x10_unforced_success_sets_one_entry (Demo.env false) (Some "foo") false st
              H1 H2) as (m & v & Hm & Hv & Hl).
  rewrite (Hm "foo" eq_refl) in Hv, Hl. vm_compute in Hv. injection Hv as <-.
  split.
  - rewrite Hl. by apply decide_True.
  - rewrite Hl. apply decide_False. intros (Hurl & _). vm_compute in Hurl. discriminate.
Defined.

(** X11: [install] changes the [ModuleInstall] object in one way only: when
    [force] was unset it may assign the user's answer to it.  The project
    directory, the remote, the sha and the prompt flag are never changed,
    and a set [force] is never cleared. *)
Theorem x11_object_changes_only_force env module silent st :
  let r := install env module silent st in
  self (final r) = self st ∨
  (force (self st) = false ∧
   ∃ m, (∀ m0, module = Some m0 → m = m0) ∧
        self (final r) = set_force (confirm_force env m) (self st)).
Proof.
  intros r. subst r. rewrite install_run.
  destruct (prepare env module st) as [[p st1] t1] eqn:Hp.
  apply prepare_spec in Hp as (_ & _ & Hself & _).
  assert (self (final (match p with
                       | None => (false, st1, t1 ++ [])
                       | Some (m0, v) =>
                           let '(b, st2, t2) := download_and_record m0 v silent st1 in
                           (b, st2, t1 ++ t2)
                       end)) = self st1) as ->.
  { destruct p as [[m0 v]|]; [|done].
    destruct (download_and_record m0 v silent st1) as [[b st2] t2] eqn:Hd.
    by apply download_and_record_spec in Hd as (Hs2 & _). }
  destruct Hself as [[-> _]|(m & Hf & -> & _ & Hm & _)]; [by left|].
  right. split; [done|]. by exists m.
Qed.

(** X12: in an install made with [force] set that reaches the download,
    [remove_entry] is called once for each remote that records the module
    under the repository path of the target, and for nothing else. *)
Theorem x12_remove_entry_calls env module silent st m v folder ok :
  let r := install env module silent st in
  let path := repo_path (modules_repo (self st)) in
  force (self (final r)) = true →
  EvInstallFiles m v folder ok ∈ emitted r →
  ∃ urls,
    remove_calls (emitted r) = (λ u, (m, u, path)) <$> urls ∧
    NoDup urls ∧
    ∀ u, u ∈ urls ↔ is_Some (lookup_entry (checked_manifest env st) u path m).
Proof.
  intros r path. subst r path. rewrite install_run.
  destruct (prepare env module st) as [[p st1] t1] eqn:Hp.
  pose proof (prepare_stages _ _ _ _ _ _ Hp) as Hst. simpl in Hst.
  destruct Hst as (ta & tb & tc & td & te & -> & Hea & Heb & Hec & Htd & Hte).
  apply prepare_spec in Hp as (_ & Hev & _ & _).
  assert (∀ e, e ∈ ta ++ tb ++ tc ++ td ++ te → materialization e = false) as Hquiet.
  { intros e Hin. rewrite Forall_forall in Hev. by destruct (Hev _ Hin). }
  destruct p as [[m0 v0]|]; unfold emitted, final; simpl.
  2:{ intros _ Hin. rewrite app_nil_r in Hin. by apply Hquiet in Hin. }
  destruct (download_and_record m0 v0 silent st1) as [[b st2] t2] eqn:Hd.
  pose proof Hd as Hdl. pose proof (download_no_purge _ _ _ _ _ _ _ Hd) as Hnp.
  apply download_and_record_spec in Hd as (Hs2 & _). simpl.
  intros Hforce [Hin|Hin]%elem_of_app; [by apply Hquiet in Hin|].
  rewrite Hs2 in Hforce. rewrite Hforce in Hte.
  assert (m = m0) as ->.
  { destruct (download_trace _ _ _ _ _ _ _ Hdl) as (l1 & l2 & ok0 & after & Ht2 & Hafter).
    rewrite Ht2 in Hin.
    apply elem_of_cons in Hin as [Hin|Hin]; [done|].
    apply elem_of_cons in Hin as [Hin|Hin]; [done|].
    apply elem_of_cons in Hin as [Hin|Hin]; [congruence|].
    rewrite Forall_forall in Hafter. by specialize (Hafter _ Hin). }
  exists (repo_hits m0 (repo_path (modules_repo (self st)))
            (map_to_list (checked_manifest env st))).
  split; [|split].
  - rewrite !remove_calls_app.
    rewrite (remove_calls_none ta), (remove_calls_none tb), (remove_calls_none tc),
      (remove_calls_none td), (remove_calls_none t2).
    + rewrite Hte.
      change (remove_calls (_ :: _ :: ?x)) with (remove_calls x).
      rewrite remove_calls_removal_trace. simpl. by rewrite app_nil_r.
    + eapply Forall_impl; [exact Hnp|]. by intros e [? _].
    + destruct Htd as [->|(m' & cur & ->)];
        [constructor | apply version_trace_no_purge].
    + eapply Forall_impl; [exact Hec|]. by intros [].
    + eapply Forall_impl; [exact Heb|]. by intros [].
    + eapply Forall_impl; [exact Hea|]. by intros [].
  - apply NoDup_repo_hits.
  - intros u. split; [apply repo_hits_sound | apply repo_hits_complete].
Qed.

Lemma x12_remove_entry_calls_witness :
  let st := Demo.start (Demo.obj true false None) Demo.foo_installed Demo.two_remotes in
  let r := install (Demo.env false) (Some "foo") false st in
  force (self (final r)) = true ∧
  EvInstallFiles "foo" "abc123" "./modules/nf-core/modules" true ∈ emitted r ∧
  ∃ urls,
    remove_calls (emitted r) = (λ u, ("foo", u, Demo.path)) <$> urls ∧
    NoDup urls ∧
    ∀ u, u ∈ urls ↔
         is_Some (lookup_entry (checked_manifest (Demo.env false) st) u Demo.path "foo").
Proof.
  intros st r.
  assert (force (self (final r)) = true) as H1 by (vm_compute; reflexivity).
  assert (EvInstallFiles "foo" "abc123" "./modules/nf-core/modules" true ∈ emitted r)
    as H2 by decide_goal.
  split; [exact H1|]. split; [exact H2|].
  exact (x12_remove_entry_calls (Demo.env false) (Some "foo") false st
           "foo" "abc123" "./modules/nf-core/modules" true H1 H2).
Defined.

(** X13: when [force] is unset as [install] returns, nothing was purged: no
    module directory was cleared and [remove_entry] was never called. *)
Theorem x13_no_force_no_purge env module silent st :
  let r := install env module silent st in
  force (self (final r)) = false →
  Forall (λ e, purge_call e = false) (emitted r).
Proof.
  intros r. subst r. rewrite install_run.
  destruct (prepare env module st) as [[p st1] t1] eqn:Hp.
  pose proof (prepare_stages _ _ _ _ _ _ Hp) as Hst. simpl in Hst.
  destruct Hst as (ta & tb & tc & td & te & -> & Hea & Heb & Hec & Htd & Hte).
  assert (Forall (λ e, purge_call e = false) (ta ++ tb ++ tc ++ td)) as Hpre.
  { repeat apply Forall_app_2.
    - eapply Forall_impl; [exact Hea|]. by intros [].
    - eapply Forall_impl; [exact Heb|]. by intros [].
    - eapply Forall_impl; [exact Hec|]. by intros [].
    - destruct Htd as [->|(m' & cur & ->)];
        [constructor | apply version_trace_no_purge]. }
  destruct p as [[m0 v0]|]; unfold emitted, final; simpl.
  - destruct (download_and_record m0 v0 silent st1) as [[b st2] t2] eqn:Hd.
    pose proof (download_no_purge _ _ _ _ _ _ _ Hd) as Hnp.
    apply download_and_record_spec in Hd as (Hs2 & _). simpl.
    intros Hforce. rewrite Hs2 in Hforce. rewrite Hforce in Hte. subst te.
    rewrite !app_nil_r, !app_assoc. apply Forall_app_2.
    + by rewrite <- !app_assoc.
    + eapply Forall_impl; [exact Hnp|]. by intros e [? _].
  - intros _. subst te. rewrite !app_nil_r, !app_assoc.
    by rewrite <- !app_assoc.
Qed.

Lemma x13_no_force_no_purge_witness :
  let st := Demo.start (Demo.obj false false None) ∅ Demo.two_remotes in
  let r := install (Demo.env false) (Some "foo") false st in
  force (self (final r)) = false ∧ result r = true ∧
  Forall (λ e, purge_call e = false) (emitted r).
Proof.
  intros st r.
  assert (force (self (final r)) = false) as H1 by (vm_compute; reflexivity).
  split; [exact H1|]. split; [vm_compute; reflexivity|].
  exact (x13_no_force_no_purge (Demo.env false) (Some "foo") false st H1).
Defined.

(** X14: [silent] changes nothing but one log line: with it or without it
    the result and the final state are the same, and the two traces differ
    at most by the include-statement hint. *)
Theorem x14_silent_only_drops_hint env module st :
  let loud := install env module false st in
  let quiet := install env module true st in
  result quiet = result loud ∧
  final quiet = final loud ∧
  ∃ before hint after,
    emitted loud = before ++ hint ++ after ∧
    emitted quiet = before ++ after ∧
    (hint = [] ∨ ∃ name path, hint = [EvLog Info (MsgInclude name path)]).
Proof.
  intros loud quiet. subst loud quiet. rewrite !install_run.
  destruct (prepare env module st) as [[[[m v]|] st1] t1].
  2:{ unfold result, final, emitted. simpl. repeat split.
      exists t1, [], []. by auto. }
  destruct (download_and_record m v false st1) as [[b st2] t2] eqn:Hloud.
  destruct (download_and_record m v true st1) as [[b' st2'] t2'] eqn:Hquiet.
  apply download_and_record_spec in Hloud as (Hs & Hl).
  apply download_and_record_spec in Hquiet as (Hs' & Hq).
  unfold result, final, emitted. simpl.
  destruct (fetch_module_files _ v m).
  - destruct Hl as (-> & Ht & Hf & Hj & ->). destruct Hq as (-> & Ht' & Hf' & Hj' & ->).
    split; [done|]. split; [apply State_eq; congruence|].
    eexists (t1 ++ [_; _; _]), [_], [_; _]. split; [|split].
    + rewrite <- app_assoc. reflexivity.
    + rewrite <- app_assoc. reflexivity.
    + right. by eexists _, _.
  - destruct Hl as (-> & Ht & Hf & Hj & ->). destruct Hq as (-> & Ht' & Hf' & Hj' & ->).
    split; [done|]. split; [apply State_eq; congruence|].
    exists (t1 ++ [EvLog Info (MsgInstalling (force (self st1)) m);
                   EvLog Debug (MsgInstallingAt m v (remote_url (modules_repo (self st1))));
                   EvInstallFiles m v (install_folder_of (self st1)) false]), [], [].
    rewrite !app_nil_r. by auto.
Qed.

(** X15: the version is asked for according to the mode only: with a
    non-empty sha neither the dialogue nor the latest revision is queried;
    in interactive mode the latest revision is not queried; in the default
    mode the dialogue is not shown. *)
Theorem x15_version_queries_follow_mode env module silent st :
  let r := install env module silent st in
  (truthy_opt (sha (self st)) = true →
   Forall (λ e, version_query e = false) (emitted r)) ∧
  (truthy_opt (sha (self st)) = false → prompt (self st) = true →
   ∀ m, EvLatestVersion m ∉ emitted r) ∧
  (truthy_opt (sha (self st)) = false → prompt (self st) = false →
   ∀ m, EvPromptVersion m ∉ emitted r).
Proof.
  intros r.
  assert (∀ e, version_query e = true → e ∈ emitted r →
               ∃ m cur, e ∈ version_trace env (self st) m cur) as Honly.
  { subst r. rewrite install_run.
    destruct (prepare env module st) as [[p st1] t1] eqn:Hp.
    pose proof (prepare_stages _ _ _ _ _ _ Hp) as Hst. simpl in Hst.
    destruct Hst as (ta & tb & tc & td & te & -> & Hea & Heb & Hec & Htd & Hte).
    assert (Forall (λ e, version_query e = false) te) as Hee.
    { subst te. destruct p as [[m0 v0]|]; [|constructor].
      destruct (force (self st1)); [|constructor].
      constructor; [done|]. constructor; [done|].
      unfold removal_trace. apply Forall_bind, Forall_forall.
      intros u _. by repeat constructor. }
    assert (∀ e, version_query e = true → e ∈ ta ++ tb ++ tc ++ td ++ te →
                 ∃ m cur, e ∈ version_trace env (self st) m cur) as Hpre.
    { intros e Hq Hin. rewrite !elem_of_app in Hin.
      rewrite Forall_forall in Hea, Heb, Hec, Hee.
      destruct Hin as [Hin|[Hin|[Hin|[Hin|Hin]]]].
      - apply Hea in Hin. by destruct e.
      - apply Heb in Hin. by destruct e.
      - apply Hec in Hin. by destruct e.
      - destruct Htd as [->|(m' & cur & ->)]; [by apply elem_of_nil in Hin|].
        by eexists _, _.
      - apply Hee in Hin. congruence. }
    intros e Hq. unfold emitted.
    destruct p as [[m0 v0]|]; simpl.
    - destruct (download_and_record m0 v0 silent st1) as [[b st2] t2] eqn:Hd.
      pose proof (download_no_purge _ _ _ _ _ _ _ Hd) as Hnp. simpl.
      intros [Hin|Hin]%elem_of_app; [by apply Hpre|].
      rewrite Forall_forall in Hnp. destruct (Hnp _ Hin). congruence.
    - rewrite app_nil_r. by apply Hpre. }
  split; [|split].
  - intros Hsha. apply Forall_forall. intros e Hin.
    destruct (version_query e) eqn:Hq; [|done].
    destruct (Honly e Hq Hin) as (m & cur & Hin').
    unfold version_trace in Hin'. rewrite Hsha in Hin'. by apply elem_of_nil in Hin'.
  - intros Hsha Hprompt m Hin.
    destruct (Honly (EvLatestVersion m) eq_refl Hin) as (m' & cur & Hin').
    unfold version_trace in Hin'. rewrite Hsha, Hprompt in Hin'.
    destruct (prompt_module_version_sha env m' cur); set_solver.
  - intros Hsha Hprompt m Hin.
    destruct (Honly (EvPromptVersion m) eq_refl Hin) as (m' & cur & Hin').
    unfold version_trace in Hin'. rewrite Hsha, Hprompt in Hin'. set_solver.
Qed.

Lemma x15_version_queries_follow_mode_witness :
  let st := Demo.start (Demo.obj false false (Some "def456")) ∅ ∅ in
  let r := install (Demo.env false) (Some "foo") false st in
  truthy_opt (sha (self st)) = true ∧ result r = true ∧
  Forall (λ e, version_query e = false) (emitted r).
Proof.
  intros st r. split; [reflexivity|]. split; [vm_compute; reflexivity|].
  exact (proj1 (x15_version_queries_follow_mode (Demo.env false) (Some "foo") false st)
           eq_refl).
Defined.

Lemma install_self env module silent st :
  ∃ b, self (final (install env module silent st)) = set_force b (self st).
Proof.
  rewrite install_run.
  destruct (prepare env module st) as [[p st1] t1] eqn:Hp.
  destruct (prepare_self _ _ _ _ _ _ Hp) as [b0 Hb0]. exists b0.
  destruct p as [[m0 v]|]; [|done].
  destruct (download_and_record m0 v silent st1) as [[b st2] t2] eqn:Hd.
  apply download_and_record_spec in Hd as (Hs2 & _). unfold final. simpl. congruence.
Qed.

Lemma install_true_tree env module silent st :
  let r := install env module silent st in
  result r = true →
  ∃ m, (∀ m0, module = Some m0 → m = m0) ∧
       is_Some (tree (final r) !! module_dir_of (self st) m).
Proof.
  intros r. subst r. rewrite install_run.
  destruct (prepare env module st) as [[p st1] t1] eqn:Hp.
  destruct (prepare_self _ _ _ _ _ _ Hp) as [b0 Hb0].
  apply prepare_spec in Hp as (_ & _ & _ & Hp).
  destruct p as [[m0 v0]|]; unfold result, final; simpl; [|done].
  destruct (download_and_record m0 v0 silent st1) as [[b st2] t2] eqn:Hd.
  apply download_and_record_spec in Hd as (_ & Hd). simpl. intros ->.
  rewrite Hb0 in Hd. simpl in Hd.
  change (module_dir_of (set_force b0 (self st)) m0)
    with (module_dir_of (self st) m0) in Hd.
  destruct (fetch_module_files _ v0 m0); [|by destruct Hd].
  destruct Hd as (_ & -> & _). destruct Hp as (_ & _ & Hm & _).
  exists m0. split; [done|].
  unfold write_files. rewrite lookup_insert_eq. by eexists.
Qed.

(** X16: [install] is not idempotent: after a successful install that
    leaves [force] unset, a second install of the same module, with the
    user declining the reinstallation and the consistency check finding
    nothing to repair, returns [False] and changes neither the project tree
    nor the manifest file. *)
Theorem x16_second_install_refused env1 env2 silent1 silent2 st0 m :
  let r1 := install env1 (Some m) silent1 st0 in
  let r2 := install env2 (Some m) silent2 (final r1) in
  result r1 = true →
  force (self (final r1)) = false →
  confirm_force env2 m = false →
  reconcile env2 (tree (final r1)) (modules_json_file (final r1))
    = modules_json_file (final r1) →
  result r2 = false ∧
  tree (final r2) = tree (final r1) ∧
  modules_json_file (final r2) = modules_json_file (final r1) ∧
  Forall (λ e, mutating e = false) (emitted r2).
Proof.
  intros r1 r2 Htrue Hforce Hdecline Hsame.
  destruct (install_self env1 (Some m) silent1 st0) as [b0 Hb0].
  pose proof (install_true_tree _ _ _ _ Htrue) as (m1 & Hm1 & Hdir).
  pose proof (Hm1 m eq_refl) as ->.
  apply install_true in Htrue as (m1 & v1 & _ & Hm1' & _ & _ & Hfile).
  pose proof (Hm1' m eq_refl) as ->.
  fold r1 in Hb0, Hdir, Hfile.
  subst r2. rewrite install_run.
  destruct (prepare env2 (Some m) (final r1)) as [[p st1] t1] eqn:Hp.
  apply prepare_spec in Hp as (Hf1 & _ & Hself & Hp).
  destruct p as [[m' v']|]; simpl in Hp.
  - exfalso. destruct Hp as (_ & _ & Hm & _ & _ & Hcase).
    pose proof (Hm m eq_refl) as ->.
    destruct Hself as [[Hs _]|(m' & _ & Hs & _ & Hm' & Hnone)].
    + rewrite Hs, Hforce in Hcase. destruct Hcase as (_ & _ & Habsent).
      rewrite Hb0 in Habsent.
      change (module_dir_of (set_force b0 (self st0)) m)
        with (module_dir_of (self st0) m) in Habsent.
      destruct Hdir as [x Hx]. rewrite Habsent in Hx; [done|].
      unfold current_version_in, checked_manifest. rewrite Hsame, Hfile. simpl.
      rewrite lookup_record_install, decide_True by done. by eexists.
    + pose proof (Hm' m eq_refl) as ->. by specialize (Hnone Hdecline).
  - destruct Hp as (Htree & Hev). unfold result, final, emitted. simpl.
    by rewrite app_nil_r.
Qed.

Lemma x16_second_install_refused_witness :
  let st0 := Demo.start (Demo.obj false false None) ∅ ∅ in
  let r1 := install (Demo.env false) (Some "foo") false st0 in
  let r2 := install (Demo.env false) (Some "foo") false (final r1) in
  result r1 = true ∧ result r2 = false ∧
  tree (final r2) = tree (final r1) ∧
  modules_json_file (final r2) = modules_json_file (final r1).
Proof.
  intros st0 r1 r2.
  assert (result r1 = true) as H1 by (vm_compute; reflexivity).
  split; [exact H1|].
  destruct (x16_second_install_refused (Demo.env false) (Demo.env false) false false
              st0 "foo" H1 eq_refl eq_refl eq_refl) as (H2 & H3 & H4 & _).
  split; [exact H2|]. split; [exact H3 | exact H4].
Defined.

(** ** The include name and the module directory *)

Lemma include_char (c : ascii) :
  let c' := if Ascii.eqb c "/" then "_"%char else upper_ascii c in
  Ascii.eqb c' "/" = false ∧ lower_ascii c' = false ∧
  (if Ascii.eqb c' "/" then "_"%char else upper_ascii c') = c' ∧
  (ascii_char c = true → ascii_char c' = true).
Proof.
  destruct c as [[] [] [] [] [] [] [] []]; vm_compute; by repeat split.
Qed.

Lemma include_name_cons c rest :
  include_name (String c rest) =
  String (if Ascii.eqb c "/" then "_"%char else upper_ascii c) (include_name rest).
Proof. reflexivity. Qed.

(** X17: for an ASCII module name, the name shown in the include
    statement, built at line 147, is ASCII again, has the length of the
    module name, holds no slash and no lower-case letter, and is left as it
    is by the same conversion. *)
Theorem x17_include_name module :
  string_forall ascii_char module = true →
  string_forall ascii_char (include_name module) = true ∧
  String.length (include_name module) = String.length module ∧
  string_forall (λ c, negb (Ascii.eqb c "/") && negb (lower_ascii c))
    (include_name module) = true ∧
  include_name (include_name module) = include_name module.
Proof.
  induction module as [|c rest IH]; [done|].
  cbn [string_forall]. intros [Hc Hrest]%andb_true_iff.
  destruct (IH Hrest) as (IH0 & IH1 & IH2 & IH3).
  destruct (include_char c) as (H1 & H2 & H3 & H4). cbv zeta in H1, H2, H3, H4.
  rewrite !include_name_cons. cbn [String.length string_forall].
  by rewrite H3, H1, H2, (H4 Hc), IH0, IH1, IH2, IH3.
Qed.

Lemma x17_include_name_witness :
  string_forall ascii_char "samtools/sort" = true ∧
  include_name "samtools/sort" = "SAMTOOLS_SORT" ∧
  String.length (include_name "samtools/sort") = String.length "samtools/sort" ∧
  include_name (include_name "samtools/sort") = include_name "samtools/sort".
Proof.
  assert (string_forall ascii_char "samtools/sort" = true) as H1 by reflexivity.
  split; [exact H1|]. split; [reflexivity|].
  destruct (x17_include_name "samtools/sort" H1) as (_ & H2 & _ & H3).
  split; [exact H2 | exact H3].
Defined.

Lemma append_cons c (a b : string) : String c a +:+ b = String c (a +:+ b).
Proof. reflexivity. Qed.

Lemma ends_with_sep_append (a b : string) :
  b ≠ EmptyString → ends_with_sep (a +:+ b) = ends_with_sep b.
Proof.
  intros Hb. induction a as [|c a IH]; [done|].
  rewrite append_cons. cbn [ends_with_sep]. rewrite IH.
  destruct (a +:+ b) eqn:Hab; [|done].
  destruct a; [by destruct b | done].
Qed.

Lemma truthy_append (a b : string) : truthy a = true → truthy (a +:+ b) = true.
Proof. by destruct a. Qed.

Lemma path_join_plain (a b : string) :
  a ≠ EmptyString → ends_with_sep a = false → starts_with_sep b = false →
  path_join a b = a +:+ "/" +:+ b.
Proof.
  intros Ha Hend Hstart. unfold path_join. rewrite Hstart, Hend.
  by destruct a.
Qed.

(** X18: for a project directory and a repository path that are non-empty
    and do not end with a slash, and a repository path and a module name
    that do not start with one, the module directory of lines 82-85 is
    <dir>/modules/<repo_path>/<module>. *)
Theorem x18_module_directory obj module :
  let d := dir obj in
  let p := repo_path (modules_repo obj) in
  d ≠ EmptyString → ends_with_sep d = false →
  p ≠ EmptyString → starts_with_sep p = false → ends_with_sep p = false →
  starts_with_sep module = false →
  install_folder_of obj = (d +:+ "/" +:+ "modules") +:+ "/" +:+ p ∧
  module_dir_of obj module =
    ((d +:+ "/" +:+ "modules") +:+ "/" +:+ p) +:+ "/" +:+ module.
Proof.
  intros d p Hd Hdend Hp Hpstart Hpend Hm.
  assert (install_folder_of obj = (d +:+ "/" +:+ "modules") +:+ "/" +:+ p) as Hfolder.
  { unfold install_folder_of. fold d p.
    rewrite (path_join_plain d "modules") by done.
    apply path_join_plain; [by destruct d | | done].
    by rewrite ends_with_sep_append. }
  split; [done|]. unfold module_dir_of. rewrite Hfolder.
  apply path_join_plain; [by destruct d | | done].
  rewrite ends_with_sep_append; [|by destruct p].
  rewrite (ends_with_sep_append "/" p) by done. done.
Qed.

Lemma x18_module_directory_witness :
  install_folder_of (Demo.obj false false None) = "./modules/nf-core/modules" ∧
  module_dir_of (Demo.obj false false None) "samtools/sort"
    = "./modules/nf-core/modules/samtools/sort".
Proof.
  exact (x18_module_directory (Demo.obj false false None) "samtools/sort"
           ltac:(decide_goal) eq_refl ltac:(decide_goal) eq_refl eq_refl eq_refl).
Defined.

(** X19: a non-empty sha that the remote does not have is found out before
    anything else is asked of the remote or of the user: after the
    directory check, the structure check and the manifest check, [install]
    queries the sha, logs the error and returns [False]. *)
Theorem x19_missing_sha_checked_first env module silent st s :
  let r := install env module silent st in
  let repo := modules_repo (self st) in
  repo_type (self st) ≠ "modules" →
  has_valid_directory env (self st) (tree st) = true →
  prompt (self st) = false →
  sha (self st) = Some s → s ≠ EmptyString →
  sha_exists_on_branch repo s = false →
  result r = false ∧
  emitted r = [EvValidDirectory; EvCheckStructure; EvLoadManifest; EvCheckUpToDate;
               EvShaExists s; EvLog Error (MsgShaMissing s (remote_url repo))].
Proof.
  intros r repo Hty%String.eqb_neq Hvalid Hprompt Hsha Hne%String.eqb_neq Hmissing.
  subst r repo. unfold install, prepare, check_request. run.
  rewrite Hty, Hvalid, Hprompt, Hsha. simpl.
  unfold truthy_opt, truthy. rewrite Hne. simpl. by rewrite Hmissing.
Qed.

Lemma x19_missing_sha_checked_first_witness :
  let st := Demo.start (Demo.obj true false (Some "nope")) Demo.foo_installed Demo.two_remotes in
  let r := install (Demo.env true) None false st in
  result r = false ∧
  emitted r = [EvValidDirectory; EvCheckStructure; EvLoadManifest; EvCheckUpToDate;
               EvShaExists "nope"; EvLog Error (MsgShaMissing "nope" Demo.url1)].
Proof.
  intros st r.
  exact (x19_missing_sha_checked_first (Demo.env true) None false st "nope"
           ltac:(decide_goal) eq_refl eq_refl eq_refl ltac:(decide_goal) eq_refl).
Defined.
